(** * Churn prediction service: the prediction pipeline of [apps/main.py]

    A shallow embedding of the artifact loader ([load_model]), the feature
    builder ([prepare_features]), the inference step ([predict_churn]) and the
    readiness probe ([health_check]) of the serving application, together
    with the label encoders fitted by [engineer_features] in
    [scripts/train_model.py].

    Conventions of the embedding:
    - Python numbers (int, float, numpy scalars) are exact rationals [Q]:
      the pipeline only divides, subtracts and compares them.  Rounding is
      not modelled, and neither is the [OverflowError] of dividing an int
      beyond the range of a float (line 105): what is stated of a vector
      that [prepare_features] returns is stated for the case that it
      returns one.
    - The four module-level globals [model], [scaler], [feature_columns],
      [label_encoders] form the record [globals]; Python [None] is [None].
    - A Python function is a computation [M A]: it receives the globals and
      returns the globals it leaves behind together with either a value or
      the exception it raised.  Assignments made before an exception stay. *)

From Stdlib Require Import String Ascii ZArith QArith Qminmax List Bool Lia.
From Stdlib Require Import DecimalString Sorted.
Import ListNotations.
Open Scope string_scope.
Open Scope Z_scope.

(** ** Exceptions *)

Inductive exn : Type :=
| KeyError (key : string)
| IndexError (msg : string)
| ValueError (msg : string)
| TypeError (msg : string)
| AttributeError (msg : string)
| OSError (msg : string)
| UnpicklingError (msg : string)
| HTTPException (status_code : Z) (detail : string).

Definition str_of_Z (z : Z) : string := NilZero.string_of_int (Z.to_int z).

(** [str(e)].  A [KeyError] prints the repr of its key; an [HTTPException]
    prints as [status_code: detail] (Starlette's [__str__]); the built-in
    exceptions print their message. *)
Definition str (e : exn) : string :=
  match e with
  | KeyError k => "'" ++ k ++ "'"
  | IndexError m | ValueError m | TypeError m | AttributeError m | OSError m
  | UnpicklingError m => m
  | HTTPException c d => str_of_Z c ++ ": " ++ d
  end.

Inductive result (A : Type) : Type :=
| Ok (a : A)
| Raise (e : exn).
Arguments Ok {A} a.
Arguments Raise {A} e.

(** ** The external objects: classifier, scaler, label encoder *)

Definition ndarray := list (list Q).

(** An opaque classifier with its two capabilities; either may raise.
    [truth] is [bool(model)]: true for an object without [__bool__] and
    [__len__]; an ensemble answers through [__len__], the number of its
    fitted estimators, which raises before fitting. *)
Record Model : Type := {
  type_name : string;
  truth : result bool;
  predict : ndarray -> result (list Z);
  predict_proba : ndarray -> result (list (list Q))
}.

(** [sklearn.preprocessing.StandardScaler] after fitting. *)
Record StandardScaler : Type := {
  mean_ : list Q;
  scale_ : list Q
}.

Fixpoint affine (xs ms ss : list Q) : list Q :=
  match xs, ms, ss with
  | x :: xs', m :: ms', s :: ss' => ((x - m) / s)%Q :: affine xs' ms' ss'
  | _, _, _ => []
  end.

Definition shape_ok (sc : StandardScaler) (row : list Q) : bool :=
  (length row =? length (mean_ sc))%nat && (length row =? length (scale_ sc))%nat.

(** [scaler.transform(X)]: element-wise [(x - mean) / scale]; a row of
    another width is refused. *)
Definition scaler_transform (sc : StandardScaler) (X : ndarray) : result ndarray :=
  if forallb (shape_ok sc) X
  then Ok (map (fun row => affine row (mean_ sc) (scale_ sc)) X)
  else Raise (ValueError "X has a different number of features than StandardScaler is expecting").

(** [sklearn.preprocessing.LabelEncoder] after fitting: the code of a value
    is its position in [classes_]. *)
Record LabelEncoder : Type := {
  classes_ : list string
}.

Fixpoint index_of (v : string) (l : list string) : option nat :=
  match l with
  | [] => None
  | x :: l' => if String.eqb v x then Some O
               else match index_of v l' with
                    | Some i => Some (S i)
                    | None => None
                    end
  end.

Fixpoint encode_all (cls : list string) (ys : list string) : result (list Q) :=
  match ys with
  | [] => Ok []
  | y :: ys' =>
      match index_of y cls with
      | None => Raise (ValueError ("y contains previously unseen labels: ['" ++ y ++ "']"))
      | Some i =>
          match encode_all cls ys' with
          | Ok cs => Ok (inject_Z (Z.of_nat i) :: cs)
          | Raise e => Raise e
          end
      end
  end.

(** [le.transform(ys)] *)
Definition le_transform (le : LabelEncoder) (ys : list string) : result (list Q) :=
  encode_all (classes_ le) ys.

(** [LabelEncoder().fit(column)]: [classes_] is the sorted list of the
    distinct values of the column. *)
Fixpoint insert_sorted (v : string) (l : list string) : list string :=
  match l with
  | [] => [v]
  | x :: l' =>
      match String.compare v x with
      | Lt => v :: l
      | Eq => l
      | Gt => x :: insert_sorted v l'
      end
  end.

Definition le_fit (column : list string) : LabelEncoder :=
  {| classes_ := fold_right insert_sorted [] column |}.

(** ** Python dictionaries with string keys, in insertion order *)

Definition dict (V : Type) := list (string * V).

Fixpoint dict_get {V} (d : dict V) (k : string) : option V :=
  match d with
  | [] => None
  | (k', v) :: d' => if String.eqb k k' then Some v else dict_get d' k
  end.

(** [d[k] = v] *)
Fixpoint dict_set {V} (d : dict V) (k : string) (v : V) : dict V :=
  match d with
  | [] => [(k, v)]
  | (k', v') :: d' =>
      if String.eqb k k' then (k', v) :: d' else (k', v') :: dict_set d' k v
  end.

(** [d.get(k, default)] *)
Definition dict_get_default {V} (d : dict V) (k : string) (default : V) : V :=
  match dict_get d k with
  | Some v => v
  | None => default
  end.

(** ** Request and response records *)

(** [CustomerData]; the optional fields are taken at a present value (their
    defaults apply when a request omits them; a request that sends an
    explicit null for one of them is outside the embedding). *)
Record CustomerData : Type := {
  tenure : Z;
  monthly_charges : Q;
  total_charges : Q;
  contract_type : string;
  payment_method : string;
  internet_service : string;
  online_security : string;
  tech_support : string;
  streaming_tv : string;
  customer_service_calls : Z
}.

Record PredictionResponse : Type := {
  churn_prediction : bool;
  churn_probability : Q;
  confidence : Q;
  model_version : string
}.

Record HealthReport : Type := {
  status : string;
  model_loaded : bool;
  model_type : option string
}.

(** ** Globals and the computation monad *)

Record globals : Type := {
  model : option Model;
  scaler : option StandardScaler;
  feature_columns : option (list string);
  label_encoders : option (dict LabelEncoder)
}.

(** The module as imported: lines 60-63. *)
Definition initial_globals : globals :=
  {| model := None; scaler := None; feature_columns := None; label_encoders := None |}.

Definition M (A : Type) : Type := globals -> globals * result A.

Definition ret {A} (a : A) : M A := fun g => (g, Ok a).

Definition raise {A} (e : exn) : M A := fun g => (g, Raise e).

Definition bind {A B} (m : M A) (f : A -> M B) : M B :=
  fun g => match m g with
           | (g', Ok a) => f a g'
           | (g', Raise e) => (g', Raise e)
           end.

(** [try: body except Exception as e: handler(e)] *)
Definition try_except {A} (body : M A) (handler : exn -> M A) : M A :=
  fun g => match body g with
           | (g', Ok a) => (g', Ok a)
           | (g', Raise e) => handler e g'
           end.

Definition lift {A} (r : result A) : M A := fun g => (g, r).

(** Reading a global. *)
Definition read {A} (field : globals -> A) : M A := fun g => (g, Ok (field g)).

(** Assigning a global. *)
Definition assign_model (v : option Model) : M unit :=
  fun g => ({| model := v; scaler := scaler g;
               feature_columns := feature_columns g;
               label_encoders := label_encoders g |}, Ok tt).

Definition assign_scaler (v : option StandardScaler) : M unit :=
  fun g => ({| model := model g; scaler := v;
               feature_columns := feature_columns g;
               label_encoders := label_encoders g |}, Ok tt).

Definition assign_feature_columns (v : option (list string)) : M unit :=
  fun g => ({| model := model g; scaler := scaler g;
               feature_columns := v;
               label_encoders := label_encoders g |}, Ok tt).

Definition assign_label_encoders (v : option (dict LabelEncoder)) : M unit :=
  fun g => ({| model := model g; scaler := scaler g;
               feature_columns := feature_columns g;
               label_encoders := v |}, Ok tt).

Declare Scope monad_scope.
Delimit Scope monad_scope with monad.
Notation "x <- m ;; k" := (bind m (fun x => k))
  (at level 61, m at next level, right associativity) : monad_scope.
Notation "m ;;; k" := (bind m (fun _ => k))
  (at level 61, right associativity) : monad_scope.
Open Scope monad_scope.

(** [d[k]] on a dictionary. *)
Definition getitem {V} (d : dict V) (k : string) : M V :=
  match dict_get d k with
  | Some v => ret v
  | None => raise (KeyError k)
  end.

(** [l[i]] on a sequence, for the literal indices 0 and 1 of the source. *)
Definition item {A} (l : list A) (i : nat) : M A :=
  match nth_error l i with
  | Some v => ret v
  | None => raise (IndexError "index out of bounds")
  end.

Fixpoint for_each {A B} (f : A -> M B) (l : list A) : M (list B) :=
  match l with
  | [] => ret []
  | a :: l' => b <- f a ;; bs <- for_each f l' ;; ret (b :: bs)
  end.

(** [max(seq)]: the first greatest item; an empty sequence is an error. *)
Definition py_max (l : list Q) : M Q :=
  match l with
  | [] => raise (ValueError "max() arg is an empty sequence")
  | x :: xs =>
      ret (fold_left (fun best y => match Qcompare best y with
                                    | Lt => y
                                    | _ => best
                                    end) xs x)
  end.

(** ** Artifact storage *)

(** The dictionary pickled by [save_model], key by key.  A slot is [None]
    when the key is missing from the dictionary, and [Some v] when the key
    holds [v], which may itself be Python's [None]. *)
Record Bundle : Type := {
  b_model : option (option Model);
  b_scaler : option (option StandardScaler);
  b_feature_columns : option (option (list string));
  b_label_encoders : option (option (dict LabelEncoder))
}.

(** The two artifact files as [load_model] sees them.  [None]: the path
    does not exist.  [Some (Raise e)]: opening or unpickling the file
    raises [e] (or the object found there is not of the layout's kind and
    its first use raises [e]).  [Some (Ok v)]: [pickle.load] returns [v];
    for the secondary file [v] may be a pickled [None]. *)
Record storage : Type := {
  full_artifact : option (result Bundle);
  simple_artifact : option (result (option Model))
}.

(** [model_data[key]] *)
Definition subscript {A} (slot : option A) (key : string) : M A :=
  match slot with
  | Some v => ret v
  | None => raise (KeyError key)
  end.

(** [with open(path, "rb") as f: pickle.load(f)] on a path not checked for
    existence. *)
Definition open_and_load {A} (file : option (result A)) : M A :=
  match file with
  | Some r => lift r
  | None => raise (OSError "No such file or directory")
  end.

(** ** [load_model], lines 65-91 *)

Definition load_model_body (disk : storage) : M bool :=
  match full_artifact disk with
  | Some file =>
      model_data <- lift file ;;
      m <- subscript (b_model model_data) "model" ;;
      assign_model m ;;;
      s <- subscript (b_scaler model_data) "scaler" ;;
      assign_scaler s ;;;
      fc <- subscript (b_feature_columns model_data) "feature_columns" ;;
      assign_feature_columns fc ;;;
      le <- subscript (b_label_encoders model_data) "label_encoders" ;;
      assign_label_encoders le ;;;
      ret true
  | None =>
      m <- open_and_load (simple_artifact disk) ;;
      assign_model m ;;;
      ret true
  end.

Definition load_model (disk : storage) : M bool :=
  try_except (load_model_body disk) (fun _ => ret false).

(** [startup_event], lines 147-151. *)
Definition startup_event (disk : storage) : M unit :=
  loaded <- load_model disk ;;
  ret tt.

(** ** [prepare_features], lines 93-145 *)

(** [x > 0] on numbers. *)
Definition positive (x : Q) : bool :=
  match Qcompare x 0 with
  | Gt => true
  | _ => false
  end.

(** The dictionary literal of lines 97-107. *)
Definition base_features (customer : CustomerData) : dict Q :=
  [ ("tenure", inject_Z (tenure customer));
    ("monthly_charges", monthly_charges customer);
    ("total_charges", total_charges customer);
    ("customer_service_calls", inject_Z (customer_service_calls customer));
    ("is_month_to_month",
      if String.eqb (contract_type customer) "Month-to-month" then 1%Q else 0%Q);
    ("is_electronic_check",
      if String.eqb (payment_method customer) "Electronic check" then 1%Q else 0%Q);
    ("has_internet",
      if negb (String.eqb (internet_service customer) "No") then 1%Q else 0%Q);
    ("tenure_monthly_ratio",
      if positive (monthly_charges customer)
      then (inject_Z (tenure customer) / monthly_charges customer)%Q else 0%Q);
    ("total_monthly_ratio",
      if positive (monthly_charges customer)
      then (total_charges customer / monthly_charges customer)%Q else 0%Q) ].

Definition contract_mapping : dict Q :=
  [ ("Month-to-month", 0%Q); ("One year", 1%Q); ("Two year", 2%Q) ].

Definition payment_mapping : dict Q :=
  [ ("Electronic check", 0%Q); ("Mailed check", 1%Q); ("Bank transfer", 2%Q);
    ("Credit card", 3%Q) ].

Definition internet_mapping : dict Q :=
  [ ("No", 0%Q); ("DSL", 1%Q); ("Fiber optic", 2%Q) ].

(** [label_encoders[name].transform([value])[0]] *)
Definition encode_with (encoders : dict LabelEncoder) (name value : string) : M Q :=
  enc <- getitem encoders name ;;
  codes <- lift (le_transform enc [value]) ;;
  item codes 0.

(** Lines 109-122: the three categorical codes are added to the dictionary. *)
Definition add_encoded (customer : CustomerData) (features : dict Q) : M (dict Q) :=
  encoders <- read label_encoders ;;
  match encoders with
  | Some ((_ :: _) as les) =>
      c <- encode_with les "contract" (contract_type customer) ;;
      let features := dict_set features "contract_encoded" c in
      p <- encode_with les "payment" (payment_method customer) ;;
      let features := dict_set features "payment_encoded" p in
      i <- encode_with les "internet" (internet_service customer) ;;
      ret (dict_set features "internet_encoded" i)
  | _ =>
      let features := dict_set features "contract_encoded"
            (dict_get_default contract_mapping (contract_type customer) 0%Q) in
      let features := dict_set features "payment_encoded"
            (dict_get_default payment_mapping (payment_method customer) 0%Q) in
      ret (dict_set features "internet_encoded"
            (dict_get_default internet_mapping (internet_service customer) 0%Q))
  end.

(** The fallback feature order of lines 129-135. *)
Definition fallback_order : list string :=
  [ "tenure"; "monthly_charges"; "total_charges"; "customer_service_calls";
    "is_month_to_month"; "is_electronic_check"; "has_internet";
    "tenure_monthly_ratio"; "total_monthly_ratio";
    "contract_encoded"; "payment_encoded"; "internet_encoded" ].

(** Lines 124-135: the one-row array. *)
Definition to_array (features : dict Q) : M ndarray :=
  columns <- read feature_columns ;;
  match columns with
  | Some ((_ :: _) as cols) =>
      row <- for_each (getitem features) cols ;;
      ret [row]
  | _ =>
      row <- for_each (getitem features) fallback_order ;;
      ret [row]
  end.

(** Lines 137-139. *)
Definition scale_array (feature_array : ndarray) : M ndarray :=
  sc <- read scaler ;;
  match sc with
  | Some s => lift (scaler_transform s feature_array)
  | None => ret feature_array
  end.

Definition prepare_features_body (customer : CustomerData) : M ndarray :=
  features <- add_encoded customer (base_features customer) ;;
  feature_array <- to_array features ;;
  scale_array feature_array.

Definition prepare_features (customer : CustomerData) : M ndarray :=
  try_except (prepare_features_body customer)
    (fun e => raise (HTTPException 500 ("Feature preparation error: " ++ str e))).

(** ** [predict_churn], lines 153-176 *)

(** [bool(prediction)] *)
Definition bool_of_label (prediction : Z) : bool := negb (prediction =? 0)%Z.

Definition predict_churn_body (customer : CustomerData) : M PredictionResponse :=
  m <- read model ;;
  match m with
  | None => raise (HTTPException 500 "Model not loaded")
  | Some mdl =>
      features <- prepare_features customer ;;
      predictions <- lift (predict mdl features) ;;
      prediction <- item predictions 0 ;;
      probabilities <- lift (predict_proba mdl features) ;;
      probability <- item probabilities 0 ;;
      p1 <- item probability 1 ;;
      conf <- py_max probability ;;
      ret {| churn_prediction := bool_of_label prediction;
             churn_probability := p1;
             confidence := conf;
             model_version := "1.0.0" |}
  end.

Definition predict_churn (customer : CustomerData) : M PredictionResponse :=
  try_except (predict_churn_body customer)
    (fun e => raise (HTTPException 500 (str e))).

(** ** [health_check], lines 178-185 *)

(** [type(model).__name__ if model else None]: the truth test of the
    global, which is [bool(model)] when a model is loaded. *)
Definition model_type_entry (m : option Model) : M (option string) :=
  match m with
  | None => ret None
  | Some mdl =>
      b <- lift (truth mdl) ;;
      ret (if b then Some (type_name mdl) else None)
  end.

Definition health_check : M HealthReport :=
  m <- read model ;;
  entry <- model_type_entry m ;;
  ret {| status := "healthy";
         model_loaded := match m with Some _ => true | None => false end;
         model_type := entry |}.

(** ** The training side: [engineer_features] and [main] of train_model.py *)

(** The values drawn for the three categorical columns of the synthetic
    data set (lines 68-70). *)
Definition contract_values : list string := [ "Month-to-month"; "One year"; "Two year" ].
Definition payment_values : list string :=
  [ "Electronic check"; "Mailed check"; "Bank transfer"; "Credit card" ].
Definition internet_values : list string := [ "DSL"; "Fiber optic"; "No" ].

(** The encoders stored by [engineer_features] (lines 194-207), fitted on
    columns in which each of the values above occurs. *)
Definition trained_label_encoders : dict LabelEncoder :=
  [ ("contract", le_fit contract_values);
    ("payment", le_fit payment_values);
    ("internet", le_fit internet_values) ].

(** [feature_columns] of [main] (lines 459-464). *)
Definition trained_feature_columns : list string :=
  [ "tenure"; "monthly_charges"; "total_charges"; "customer_service_calls";
    "is_month_to_month"; "is_electronic_check"; "has_internet";
    "tenure_monthly_ratio"; "total_monthly_ratio";
    "contract_encoded"; "payment_encoded"; "internet_encoded" ].

(** ** Concrete data used in examples *)

Definition example_record : CustomerData :=
  {| tenure := 12; monthly_charges := 50%Q; total_charges := 600%Q;
     contract_type := "Month-to-month"; payment_method := "Electronic check";
     internet_service := "DSL"; online_security := "No";
     tech_support := "No"; streaming_tv := "No"; customer_service_calls := 2 |}.

(** A record with no monthly charge. *)
Definition free_record : CustomerData :=
  {| tenure := 5; monthly_charges := 0%Q; total_charges := 0%Q;
     contract_type := "One year"; payment_method := "Credit card";
     internet_service := "No"; online_security := "No";
     tech_support := "No"; streaming_tv := "No"; customer_service_calls := 0 |}.

Definition no_internet_record : CustomerData :=
  {| tenure := 3; monthly_charges := 20%Q; total_charges := 60%Q;
     contract_type := "Month-to-month"; payment_method := "Electronic check";
     internet_service := "No"; online_security := "No";
     tech_support := "No"; streaming_tv := "No"; customer_service_calls := 0 |}.

Definition stub_model : Model :=
  {| type_name := "StubModel";
     truth := Ok true;
     predict := fun _ => Ok [1];
     predict_proba := fun _ => Ok [[(3 # 10)%Q; (7 # 10)%Q]] |}.

Definition absent_with (m : Model) : globals :=
  {| model := Some m; scaler := None; feature_columns := None; label_encoders := None |}.

(** A scaler fitted on twelve columns. *)
Definition demo_scaler : StandardScaler :=
  {| mean_ := repeat 1%Q 12; scale_ := repeat 2%Q 12 |}.

(** The globals after loading the bundle written by the training script. *)
Definition trained_globals : globals :=
  {| model := Some stub_model; scaler := Some demo_scaler;
     feature_columns := Some trained_feature_columns;
     label_encoders := Some trained_label_encoders |}.

(** The bundle file it was loaded from. *)
Definition trained_disk : storage :=
  {| full_artifact :=
       Some (Ok {| b_model := Some (Some stub_model);
                   b_scaler := Some (Some demo_scaler);
                   b_feature_columns := Some (Some trained_feature_columns);
                   b_label_encoders := Some (Some trained_label_encoders) |});
     simple_artifact := Some (Ok (Some stub_model)) |}.

(** A record with a contract type the training data never had. *)
Definition weekly_record : CustomerData :=
  {| tenure := 12; monthly_charges := 50%Q; total_charges := 600%Q;
     contract_type := "Weekly"; payment_method := "Electronic check";
     internet_service := "DSL"; online_security := "No";
     tech_support := "No"; streaming_tv := "No"; customer_service_calls := 2 |}.

(** A bare model with a column list that is loaded but empty. *)
Definition empty_columns_globals : globals :=
  {| model := Some stub_model; scaler := None;
     feature_columns := Some []; label_encoders := None |}.



(** ** Vocabulary of the properties *)

Definition read_only {A} (m : M A) : Prop := forall g, fst (m g) = g.

Definition run {A} (m : M A) (g : globals) : result A := snd (m g).

(** The outcomes in which both the file and the layout are as expected:
    the full bundle with its four slots, or, when the primary path does not
    exist, a readable bare model. *)
Definition loadable (disk : storage) : bool :=
  match full_artifact disk with
  | Some (Ok b) =>
      match b_model b, b_scaler b, b_feature_columns b, b_label_encoders b with
      | Some _, Some _, Some _, Some _ => true
      | _, _, _, _ => false
      end
  | Some (Raise _) => false
  | None =>
      match simple_artifact disk with
      | Some (Ok _) => true
      | _ => false
      end
  end.

(** A global holds an object. *)
Definition populated {A} (o : option A) : Prop := o <> None.

(** The codes of the fallback branch, lines 116-122. *)
Definition fallback_codes (c : CustomerData) (d : dict Q) : dict Q :=
  dict_set
    (dict_set
       (dict_set d "contract_encoded"
          (dict_get_default contract_mapping (contract_type c) 0%Q))
       "payment_encoded"
       (dict_get_default payment_mapping (payment_method c) 0%Q))
    "internet_encoded"
    (dict_get_default internet_mapping (internet_service c) 0%Q).

Definition no_encoders (g : globals) : Prop :=
  label_encoders g = None \/ label_encoders g = Some [].




(** [value] belongs to the known set of the encoder stored under [name]. *)
Definition known (les : dict LabelEncoder) (name value : string) : Prop :=
  exists enc, dict_get les name = Some enc /\ In value (classes_ enc).

(** The columns the array step iterates over: [feature_columns] when it is
    a non-empty list, the fallback order otherwise. *)
Definition effective_columns (g : globals) : list string :=
  match feature_columns g with
  | Some ((_ :: _) as cols) => cols
  | _ => fallback_order
  end.

(** No preprocessing metadata at all: the state left by the simple layout. *)
Definition absent (g : globals) : Prop :=
  scaler g = None /\ feature_columns g = None /\ label_encoders g = None.

(** The vector of the fallback path, in the order of lines 129-135. *)
Definition absent_vector (c : CustomerData) : list Q :=
  [ inject_Z (tenure c); monthly_charges c; total_charges c;
    inject_Z (customer_service_calls c);
    if String.eqb (contract_type c) "Month-to-month" then 1%Q else 0%Q;
    if String.eqb (payment_method c) "Electronic check" then 1%Q else 0%Q;
    if negb (String.eqb (internet_service c) "No") then 1%Q else 0%Q;
    if positive (monthly_charges c)
    then (inject_Z (tenure c) / monthly_charges c)%Q else 0%Q;
    if positive (monthly_charges c)
    then (total_charges c / monthly_charges c)%Q else 0%Q;
    dict_get_default contract_mapping (contract_type c) 0%Q;
    dict_get_default payment_mapping (payment_method c) 0%Q;
    dict_get_default internet_mapping (internet_service c) 0%Q ].

(** The row before scaling: lines 96-135 of [prepare_features]. *)
Definition assemble (customer : CustomerData) : M ndarray :=
  features <- add_encoded customer (base_features customer) ;;
  to_array features.

(** The translation of a failure inside [prepare_features], line 145. *)
Definition feature_error {A} (r : result A) : result A :=
  match r with
  | Ok a => Ok a
  | Raise e => Raise (HTTPException 500 ("Feature preparation error: " ++ str e))
  end.

(** ** [model_info], lines 187-198 *)

(** The value of the [features_used] entry: the loaded column names, or
    the text [Default features]. *)
Inductive features_used_value : Type :=
| FeatureNames (cols : list string)
| DefaultFeatures.

Record ModelInfo : Type := {
  info_model_type : string;
  info_model_version : string;
  features_used : features_used_value;
  has_preprocessing : bool
}.

Definition model_info : M ModelInfo :=
  m <- read model ;;
  match m with
  | None => raise (HTTPException 500 "Model not loaded")
  | Some mdl =>
      columns <- read feature_columns ;;
      sc <- read scaler ;;
      ret {| info_model_type := type_name mdl;
             info_model_version := "1.0.0";
             features_used := match columns with
                              | Some ((_ :: _) as cols) => FeatureNames cols
                              | _ => DefaultFeatures
                              end;
             has_preprocessing := match sc with Some _ => true | None => false end |}
  end.

(** ** The training script, [scripts/train_model.py] *)

(** One row of the data set of [create_synthetic_dataset]: the columns a
    request also carries are grouped in [attributes]. *)
Record DataRow : Type := {
  customer_id : Z;
  attributes : CustomerData;
  monthly_charges_ratio : Q;
  churn : Z
}.

(** [x > y] on numbers. *)
Definition Qgt_bool (x y : Q) : bool :=
  match Qcompare x y with
  | Gt => true
  | _ => false
  end.

(** A boolean column entry multiplied by a weight. *)
Definition weighted (b : bool) (w : Q) : Q := ((if b then 1 else 0) * w)%Q.

(** [np.clip(x, lo, hi)] *)
Definition clip (x lo hi : Q) : Q := Qmin (Qmax x lo) hi.

(** The churn probability of a row, lines 81-90. *)
Definition churn_prob (r : DataRow) : Q :=
  let a := attributes r in
  clip (weighted (tenure a <? 12)%Z (3 # 10)
        + weighted (Qgt_bool (monthly_charges a) 80) (2 # 10)
        + weighted (String.eqb (contract_type a) "Month-to-month") (3 # 10)
        + weighted (3 <? customer_service_calls a)%Z (2 # 10)
        + weighted (String.eqb (payment_method a) "Electronic check") (1 # 10))%Q
       0 1.

(** Division of two float columns, entry by entry.  A zero divisor gives a
    non-finite float (inf or nan), which is [None] here. *)
Definition pd_div (x y : Q) : option Q :=
  if Qeq_bool y 0 then None else Some (x / y)%Q.

(** [LabelEncoder().fit_transform(column)] *)
Definition fit_transform (column : list string) : LabelEncoder * result (list Q) :=
  let le := le_fit column in (le, le_transform le column).

(** The numeric columns of one row of [df_processed], given the row's three
    codes (lines 185-200). *)
Definition row_features (r : DataRow) (c p i : Q) : dict (option Q) :=
  let a := attributes r in
  [ ("customer_id", Some (inject_Z (customer_id r)));
    ("tenure", Some (inject_Z (tenure a)));
    ("monthly_charges", Some (monthly_charges a));
    ("total_charges", Some (total_charges a));
    ("monthly_charges_ratio", Some (monthly_charges_ratio r));
    ("customer_service_calls", Some (inject_Z (customer_service_calls a)));
    ("churn", Some (inject_Z (churn r)));
    ("is_month_to_month",
      Some (if String.eqb (contract_type a) "Month-to-month" then 1%Q else 0%Q));
    ("is_electronic_check",
      Some (if String.eqb (payment_method a) "Electronic check" then 1%Q else 0%Q));
    ("has_internet",
      Some (if negb (String.eqb (internet_service a) "No") then 1%Q else 0%Q));
    ("tenure_monthly_ratio", pd_div (inject_Z (tenure a)) (monthly_charges a));
    ("total_monthly_ratio", pd_div (total_charges a) (monthly_charges a));
    ("contract_encoded", Some c);
    ("payment_encoded", Some p);
    ("internet_encoded", Some i) ].

(** The rows of the frame put together with the three code columns. *)
Fixpoint add_code_columns (df : list DataRow) (cs ps ns : list Q)
  : list (dict (option Q)) :=
  match df, cs, ps, ns with
  | r :: df', c :: cs', p :: ps', i :: ns' =>
      row_features r c p i :: add_code_columns df' cs' ps' ns'
  | _, _, _, _ => []
  end.

(** [engineer_features], lines 170-211: the processed frame, row by row,
    and the three fitted encoders. *)
Definition engineer_features (df : list DataRow)
  : result (list (dict (option Q)) * dict LabelEncoder) :=
  let (le_contract, contract_encoded) :=
    fit_transform (map (fun r => contract_type (attributes r)) df) in
  let (le_payment, payment_encoded) :=
    fit_transform (map (fun r => payment_method (attributes r)) df) in
  let (le_internet, internet_encoded) :=
    fit_transform (map (fun r => internet_service (attributes r)) df) in
  match contract_encoded with
  | Raise e => Raise e
  | Ok cs =>
      match payment_encoded with
      | Raise e => Raise e
      | Ok ps =>
          match internet_encoded with
          | Raise e => Raise e
          | Ok ns =>
              Ok (add_code_columns df cs ps ns,
                  [ ("contract", le_contract); ("payment", le_payment);
                    ("internet", le_internet) ])
          end
      end
  end.

(** [row[feature_columns]]: the listed columns of one row, in the listed
    order; a missing column is a [KeyError]. *)
Fixpoint select_columns {V} (row : dict V) (columns : list string) : result (list V) :=
  match columns with
  | [] => Ok []
  | k :: columns' =>
      match dict_get row k with
      | None => Raise (KeyError k)
      | Some v =>
          match select_columns row columns' with
          | Ok vs => Ok (v :: vs)
          | Raise e => Raise e
          end
      end
  end.

(** One trained candidate of [train_models]: its name, its ROC-AUC on the
    test set and the fitted model. *)
Record Candidate : Type := {
  cand_name : string;
  cand_auc : Q;
  cand_model : Model
}.

(** The selection carried through the loop of [train_models], lines
    265-321: [best_model] and [best_score] start at [None] and 0 and are
    replaced by a candidate whose AUC is greater than the best so far. *)
Definition select_best (results : list Candidate) : option Model * Q :=
  fold_left (fun best cand =>
               if Qgt_bool (cand_auc cand) (snd best)
               then (Some (cand_model cand), cand_auc cand)
               else best)
            results (None, 0%Q).

(** [max(results.keys(), key=lambda k: results[k]['auc'])], lines 323 and
    486: the first candidate of greatest AUC. *)
Definition best_by_auc (results : list Candidate) : result Candidate :=
  match results with
  | [] => Raise (ValueError "max() arg is an empty sequence")
  | first :: rest =>
      Ok (fold_left (fun best cand =>
                       if Qgt_bool (cand_auc cand) (cand_auc best) then cand else best)
                    rest first)
  end.

(** [save_model], lines 405-439: the bundle goes to the primary location
    and the bare model to the secondary one, replacing what was there;
    [best_model] is what [train_models] returned, [None] included.  The
    script is taken to run from the directory that holds [models] and
    [apps], so that these are the two files [load_model] looks for. *)
Definition save_model (best_model : option Model) (sc : StandardScaler)
    (columns : list string) (encoders : dict LabelEncoder) (disk : storage) : storage :=
  {| full_artifact :=
       Some (Ok {| b_model := Some best_model; b_scaler := Some (Some sc);
                   b_feature_columns := Some (Some columns);
                   b_label_encoders := Some (Some encoders) |});
     simple_artifact := Some (Ok best_model) |}.

(** A primary file that cannot be unpickled beside a good secondary one. *)
Definition corrupt_full_disk : storage :=
  {| full_artifact := Some (Raise (UnpicklingError "invalid load key"));
     simple_artifact := Some (Ok (Some stub_model)) |}.

(** Only the bare model is on disk. *)
Definition simple_only_disk : storage :=
  {| full_artifact := None; simple_artifact := Some (Ok (Some stub_model)) |}.

(** A random forest that was stored before [fit]: its truth value is
    [len(model)], which reads [estimators_]; so do its predictions
    ([NotFittedError] is a subclass of [ValueError] and [AttributeError]). *)
Definition unfitted_forest : Model :=
  {| type_name := "RandomForestClassifier";
     truth := Raise (AttributeError
                       "'RandomForestClassifier' object has no attribute 'estimators_'");
     predict := fun _ => Raise (AttributeError
       "This RandomForestClassifier instance is not fitted yet.");
     predict_proba := fun _ => Raise (AttributeError
       "This RandomForestClassifier instance is not fitted yet.") |}.

Definition unfitted_disk : storage :=
  {| full_artifact := None; simple_artifact := Some (Ok (Some unfitted_forest)) |}.

(** A bundle with the four keys and [None] under each of them. *)
Definition modelless_disk : storage :=
  {| full_artifact :=
       Some (Ok {| b_model := Some None; b_scaler := Some None;
                   b_feature_columns := Some None; b_label_encoders := Some None |});
     simple_artifact := None |}.

(** A classifier fitted on data of one class only. *)
Definition single_class_model : Model :=
  {| type_name := "SingleClass";
     truth := Ok true;
     predict := fun _ => Ok [0];
     predict_proba := fun _ => Ok [[1%Q]] |}.

(** The example record with the three service fields filled in. *)
Definition streaming_record : CustomerData :=
  {| tenure := 12; monthly_charges := 50%Q; total_charges := 600%Q;
     contract_type := "Month-to-month"; payment_method := "Electronic check";
     internet_service := "DSL"; online_security := "Yes";
     tech_support := "Yes"; streaming_tv := "No internet service";
     customer_service_calls := 2 |}.

(** A bundle whose column list names a feature the builder does not have,
    as loaded. *)
Definition misnamed_globals : globals :=
  {| model := Some stub_model; scaler := None;
     feature_columns := Some [ "tenure"; "monthly_charges_ratio" ];
     label_encoders := None |}.

(** A scaler fitted on two columns, loaded without a column list. *)
Definition narrow_scaler_globals : globals :=
  {| model := Some stub_model;
     scaler := Some {| mean_ := [ 1%Q; 1%Q ]; scale_ := [ 2%Q; 2%Q ] |};
     feature_columns := None; label_encoders := None |}.

(** A small data set in the shape of [create_synthetic_dataset]. *)
Definition demo_frame : list DataRow :=
  [ {| customer_id := 1; attributes := example_record;
       monthly_charges_ratio := 1%Q; churn := 1 |};
    {| customer_id := 2; attributes := no_internet_record;
       monthly_charges_ratio := (3 # 2)%Q; churn := 0 |};
    {| customer_id := 3; attributes := free_record;
       monthly_charges_ratio := (1 # 2)%Q; churn := 0 |} ].

(** A row with every risk factor of the churn target. *)
Definition risky_row : DataRow :=
  {| customer_id := 4;
     attributes :=
       {| tenure := 3; monthly_charges := 95%Q; total_charges := 285%Q;
          contract_type := "Month-to-month"; payment_method := "Electronic check";
          internet_service := "DSL"; online_security := "No";
          tech_support := "No"; streaming_tv := "No"; customer_service_calls := 5 |};
     monthly_charges_ratio := 1%Q; churn := 1 |}.

(** Three candidates in the order of [train_models]. *)
Definition demo_candidates : list Candidate :=
  [ {| cand_name := "Random Forest"; cand_auc := (8 # 10)%Q; cand_model := stub_model |};
    {| cand_name := "Logistic Regression"; cand_auc := (9 # 10)%Q;
       cand_model := single_class_model |};
    {| cand_name := "SVM"; cand_auc := (9 # 10)%Q; cand_model := stub_model |} ].

(** ** Further vocabulary *)

(** Two records agree on every field the pipeline reads. *)
Definition same_features_input (c c' : CustomerData) : Prop :=
  tenure c = tenure c' /\ monthly_charges c = monthly_charges c' /\
  total_charges c = total_charges c' /\ contract_type c = contract_type c' /\
  payment_method c = payment_method c' /\ internet_service c = internet_service c' /\
  customer_service_calls c = customer_service_calls c'.

(** Strictly increasing in the order of [String.compare]. *)
Definition string_lt (a b : string) : Prop := String.compare a b = Lt.

(** The five risk factors of [churn_prob], as booleans. *)
Definition short_tenure (r : DataRow) : bool := (tenure (attributes r) <? 12)%Z.
Definition high_charges (r : DataRow) : bool :=
  Qgt_bool (monthly_charges (attributes r)) 80.
Definition monthly_contract (r : DataRow) : bool :=
  String.eqb (contract_type (attributes r)) "Month-to-month".
Definition many_calls (r : DataRow) : bool :=
  (3 <? customer_service_calls (attributes r))%Z.
Definition pays_by_echeck (r : DataRow) : bool :=
  String.eqb (payment_method (attributes r)) "Electronic check".

(** The state of the two selections of [train_models] after the same
    candidates: either they hold the same candidate, or nothing was selected
    yet and no AUC seen so far is positive. *)
Definition in_step (best : option Model * Q) (top : Candidate) : Prop :=
  (best = (Some (cand_model top), cand_auc top) /\ (0 < cand_auc top)%Q) \/
  (best = (None, 0%Q) /\ (cand_auc top <= 0)%Q).

(** The code an encoder with classes [cls] gives to a value it knows. *)
Definition code_of (cls : list string) (v : string) : Q :=
  match index_of v cls with
  | Some i => inject_Z (Z.of_nat i)
  | None => 0%Q
  end.

(** The row of [df_processed] built from a data row, given the classes of
    the three fitted encoders. *)
Definition engineered_row (contracts payments internets : list string) (r : DataRow)
  : dict (option Q) :=
  row_features r
    (code_of contracts (contract_type (attributes r)))
    (code_of payments (payment_method (attributes r)))
    (code_of internets (internet_service (attributes r))).

(** ** [prepare_features] with its effects written out *)

(** What a call can touch besides returning a value: the module globals,
    the records written through [logger], and whatever state the library
    objects keep behind their methods. *)
Record world (lib : Type) : Type := {
  w_globals : globals;
  w_log : list string;
  w_lib : lib
}.
Arguments w_globals {lib} w.
Arguments w_log {lib} w.
Arguments w_lib {lib} w.

(** [d[k]] as a value or the [KeyError]. *)
Definition dict_getitem {V} (d : dict V) (k : string) : result V :=
  match dict_get d k with
  | Some v => Ok v
  | None => Raise (KeyError k)
  end.

(** [l[0]] *)
Definition first_item {A} (l : list A) : result A :=
  match nth_error l 0 with
  | Some v => Ok v
  | None => Raise (IndexError "index out of bounds")
  end.

Section Effects.

Variable lib : Type.

(** [encoder.transform(ys)] and [scaler.transform(X)] as calls into the
    library: they see the library's state and may change it. *)
Variable encoder_transform :
  LabelEncoder -> list string -> lib -> lib * result (list Q).
Variable scaler_call : StandardScaler -> ndarray -> lib -> lib * result ndarray.

Definition W (A : Type) : Type := world lib -> world lib * result A.

Definition ret_w {A} (a : A) : W A := fun w => (w, Ok a).

Definition raise_w {A} (e : exn) : W A := fun w => (w, Raise e).

Definition lift_w {A} (r : result A) : W A := fun w => (w, r).

Definition bind_w {A B} (m : W A) (f : A -> W B) : W B :=
  fun w => match m w with
           | (w', Ok a) => f a w'
           | (w', Raise e) => (w', Raise e)
           end.

Definition try_w {A} (body : W A) (handler : exn -> W A) : W A :=
  fun w => match body w with
           | (w', Ok a) => (w', Ok a)
           | (w', Raise e) => handler e w'
           end.

Definition read_w {A} (field : globals -> A) : W A :=
  fun w => (w, Ok (field (w_globals w))).

(** [logger.error(msg)] *)
Definition logger_error (msg : string) : W unit :=
  fun w => ({| w_globals := w_globals w; w_log := (w_log w ++ [msg])%list;
               w_lib := w_lib w |}, Ok tt).

Definition call_encoder (enc : LabelEncoder) (ys : list string) : W (list Q) :=
  fun w => let (l, r) := encoder_transform enc ys (w_lib w) in
           ({| w_globals := w_globals w; w_log := w_log w; w_lib := l |}, r).

Definition call_scaler (sc : StandardScaler) (X : ndarray) : W ndarray :=
  fun w => let (l, r) := scaler_call sc X (w_lib w) in
           ({| w_globals := w_globals w; w_log := w_log w; w_lib := l |}, r).

(** [label_encoders[name].transform([value])[0]] *)
Definition encode_with_w (encoders : dict LabelEncoder) (name value : string) : W Q :=
  bind_w (lift_w (dict_getitem encoders name)) (fun enc =>
  bind_w (call_encoder enc [value]) (fun codes =>
  lift_w (first_item codes))).

(** Lines 109-122. *)
Definition add_encoded_w (customer : CustomerData) (features : dict Q) : W (dict Q) :=
  bind_w (read_w label_encoders) (fun encoders =>
  match encoders with
  | Some ((_ :: _) as les) =>
      bind_w (encode_with_w les "contract" (contract_type customer)) (fun c =>
      let features := dict_set features "contract_encoded" c in
      bind_w (encode_with_w les "payment" (payment_method customer)) (fun p =>
      let features := dict_set features "payment_encoded" p in
      bind_w (encode_with_w les "internet" (internet_service customer)) (fun i =>
      ret_w (dict_set features "internet_encoded" i))))
  | _ =>
      let features := dict_set features "contract_encoded"
            (dict_get_default contract_mapping (contract_type customer) 0%Q) in
      let features := dict_set features "payment_encoded"
            (dict_get_default payment_mapping (payment_method customer) 0%Q) in
      ret_w (dict_set features "internet_encoded"
               (dict_get_default internet_mapping (internet_service customer) 0%Q))
  end).

(** Lines 124-135. *)
Definition to_array_w (features : dict Q) : W ndarray :=
  bind_w (read_w feature_columns) (fun columns =>
  match columns with
  | Some ((_ :: _) as cols) =>
      bind_w (lift_w (select_columns features cols)) (fun row => ret_w [row])
  | _ =>
      bind_w (lift_w (select_columns features fallback_order)) (fun row => ret_w [row])
  end).

(** Lines 137-139. *)
Definition scale_array_w (feature_array : ndarray) : W ndarray :=
  bind_w (read_w scaler) (fun sc =>
  match sc with
  | Some s => call_scaler s feature_array
  | None => ret_w feature_array
  end).

(** Lines 93-145, with the [logger.error] of the handler. *)
Definition prepare_features_w (customer : CustomerData) : W ndarray :=
  try_w
    (bind_w (add_encoded_w customer (base_features customer)) (fun features =>
     bind_w (to_array_w features) (fun feature_array =>
     scale_array_w feature_array)))
    (fun e =>
       bind_w (logger_error ("Error preparing features: " ++ str e)) (fun _ =>
       raise_w (HTTPException 500 ("Feature preparation error: " ++ str e)))).

(** A call whose outcome depends on the globals only: started in two
    worlds with the same globals it gives the same result, and it leaves
    the globals as they are and the log at most longer. *)
Definition stable {A} (m : W A) : Prop :=
  forall w w',
    w_globals w = w_globals w' ->
    snd (m w) = snd (m w') /\
    w_globals (fst (m w)) = w_globals w /\
    exists entries, w_log (fst (m w)) = (w_log w ++ entries)%list.

End Effects.

Arguments ret_w {lib A} a.
Arguments raise_w {lib A} e.
Arguments lift_w {lib A} r.
Arguments bind_w {lib A B} m f.
Arguments try_w {lib A} body handler.
Arguments read_w {lib A} field.
Arguments logger_error {lib} msg.
Arguments stable {lib A} m.

(** The library as the rest of this development has it: the transforms
    are functions of their arguments and keep no state. *)
Definition pure_encoder_transform (enc : LabelEncoder) (ys : list string) (l : unit)
  : unit * result (list Q) := (l, le_transform enc ys).

Definition pure_scaler_call (sc : StandardScaler) (X : ndarray) (l : unit)
  : unit * result ndarray := (l, scaler_transform sc X).

(** A call written with its effects agrees with a call of the state and
    exception monad when, from every world, it returns what the latter
    returns on the world's globals and leaves the globals as they are. *)
Definition refines {A} (mw : W unit A) (m : M A) : Prop :=
  forall w, snd (mw w) = run m (w_globals w) /\ w_globals (fst (mw w)) = w_globals w.

(** A library whose encoder counts its calls and lets the count into the
    code it returns. *)
Definition counting_encoder_transform (enc : LabelEncoder) (ys : list string) (n : nat)
  : nat * result (list Q) :=
  (S n, Ok (map (fun _ => inject_Z (Z.of_nat n)) ys)).

Definition ignoring_scaler_call (sc : StandardScaler) (X : ndarray) (n : nat)
  : nat * result ndarray := (n, scaler_transform sc X).

Definition fresh_world {lib} (g : globals) (l : lib) : world lib :=
  {| w_globals := g; w_log := []; w_lib := l |}.

(** * Auxiliary lemmas *)

(** ** Computations that only read the globals *)

Lemma read_only_run {A} (m : M A) g : read_only m -> m g = (g, run m g).
Proof.
  intros H. unfold run. rewrite <- (H g) at 2. destruct (m g); reflexivity.
Qed.

Lemma ro_ret {A} (a : A) : read_only (ret a).
Proof. intros g; reflexivity. Qed.

Lemma ro_raise {A} e : read_only (@raise A e).
Proof. intros g; reflexivity. Qed.

Lemma ro_lift {A} (r : result A) : read_only (lift r).
Proof. intros g; reflexivity. Qed.

Lemma ro_read {A} (field : globals -> A) : read_only (read field).
Proof. intros g; reflexivity. Qed.

Lemma ro_bind {A B} (m : M A) (f : A -> M B) :
  read_only m -> (forall a, read_only (f a)) -> read_only (bind m f).
Proof.
  intros Hm Hf g. unfold bind. rewrite (read_only_run m g Hm).
  destruct (run m g); [apply Hf | reflexivity].
Qed.

Lemma ro_try {A} (m : M A) (h : exn -> M A) :
  read_only m -> (forall e, read_only (h e)) -> read_only (try_except m h).
Proof.
  intros Hm Hh g. unfold try_except. rewrite (read_only_run m g Hm).
  destruct (run m g); [reflexivity | apply Hh].
Qed.

Lemma ro_getitem {V} (d : dict V) k : read_only (getitem d k).
Proof. unfold getitem. destruct (dict_get d k); [apply ro_ret | apply ro_raise]. Qed.

Lemma ro_item {A} (l : list A) i : read_only (item l i).
Proof. unfold item. destruct (nth_error l i); [apply ro_ret | apply ro_raise]. Qed.

Lemma ro_py_max l : read_only (py_max l).
Proof. destruct l; [apply ro_raise | apply ro_ret]. Qed.

Lemma ro_for_each {A B} (f : A -> M B) l :
  (forall a, read_only (f a)) -> read_only (for_each f l).
Proof.
  intros Hf. induction l as [|a l IH]; simpl.
  - apply ro_ret.
  - apply ro_bind; [apply Hf | intros b].
    apply ro_bind; [exact IH | intros bs; apply ro_ret].
Qed.

Create HintDb ro discriminated.
#[local] Hint Resolve ro_ret ro_raise ro_lift ro_read ro_getitem ro_item ro_py_max : ro.

Ltac ro_step :=
  first [ apply ro_bind; [| intro]
        | apply ro_try; [| intro]
        | apply ro_for_each; intro
        | solve [auto with ro] ].

Lemma run_bind {A B} (m : M A) (f : A -> M B) g :
  read_only m ->
  run (bind m f) g = match run m g with
                     | Ok a => run (f a) g
                     | Raise e => Raise e
                     end.
Proof.
  intros Hm. unfold run at 1. unfold bind. rewrite (read_only_run m g Hm).
  destruct (run m g); reflexivity.
Qed.

Lemma run_try {A} (m : M A) (h : exn -> M A) g :
  read_only m ->
  run (try_except m h) g = match run m g with
                           | Ok a => Ok a
                           | Raise e => run (h e) g
                           end.
Proof.
  intros Hm. unfold run at 1. unfold try_except. rewrite (read_only_run m g Hm).
  destruct (run m g); reflexivity.
Qed.

Lemma ro_encode_with les name v : read_only (encode_with les name v).
Proof. unfold encode_with. repeat ro_step. Qed.

Lemma ro_add_encoded c d : read_only (add_encoded c d).
Proof.
  unfold add_encoded. ro_step; [auto with ro|].
  destruct a as [[|p les]|]; try apply ro_ret.
  repeat (first [apply ro_encode_with | ro_step]).
Qed.

Lemma ro_to_array d : read_only (to_array d).
Proof.
  unfold to_array. ro_step; [auto with ro|].
  destruct a as [[|col cols]|]; repeat ro_step.
Qed.

Lemma ro_scale_array X : read_only (scale_array X).
Proof.
  unfold scale_array. ro_step; [auto with ro|].
  destruct a; auto with ro.
Qed.

Lemma ro_prepare_features_body c : read_only (prepare_features_body c).
Proof.
  unfold prepare_features_body.
  apply ro_bind; [apply ro_add_encoded | intros d].
  apply ro_bind; [apply ro_to_array | intros X]. apply ro_scale_array.
Qed.

Lemma ro_prepare_features c : read_only (prepare_features c).
Proof.
  unfold prepare_features. apply ro_try; [apply ro_prepare_features_body|].
  intros e; apply ro_raise.
Qed.

Lemma ro_predict_churn_body c : read_only (predict_churn_body c).
Proof.
  unfold predict_churn_body. ro_step; [auto with ro|].
  destruct a as [mdl|]; [|apply ro_raise].
  apply ro_bind; [apply ro_prepare_features | intros X].
  repeat ro_step.
Qed.

Lemma ro_predict_churn c : read_only (predict_churn c).
Proof.
  unfold predict_churn. apply ro_try; [apply ro_predict_churn_body|].
  intros e; apply ro_raise.
Qed.

Ltac run_simpl :=
  repeat first
    [ rewrite run_try by apply ro_prepare_features_body
    | rewrite run_bind by
        first [ apply ro_add_encoded | apply ro_to_array | apply ro_encode_with
              | apply ro_prepare_features | apply ro_for_each; intro; apply ro_getitem
              | auto with ro ] ].

(** ** Lists, dictionaries and encoders *)

Lemma dict_get_absent {V} (d : dict V) k :
  ~ In k (map fst d) -> dict_get d k = None.
Proof.
  induction d as [|[k' v] d IH]; simpl; intros H; [reflexivity|].
  destruct (String.eqb_spec k k') as [->|Hne].
  - exfalso; apply H; left; reflexivity.
  - apply IH. intros Hin; apply H; right; exact Hin.
Qed.

Lemma index_of_None v l : ~ In v l -> index_of v l = None.
Proof.
  induction l as [|x l IH]; simpl; intros H; [reflexivity|].
  destruct (String.eqb_spec v x) as [->|Hne].
  - exfalso; apply H; left; reflexivity.
  - rewrite IH; [reflexivity|]. intros Hin; apply H; right; exact Hin.
Qed.

Lemma index_of_Some v l i : index_of v l = Some i -> In v l.
Proof.
  revert i. induction l as [|x l IH]; simpl; intros i H; [discriminate|].
  destruct (String.eqb_spec v x) as [->|Hne]; [left; reflexivity|].
  destruct (index_of v l) as [j|]; [|discriminate]. right. eapply IH. reflexivity.
Qed.

Lemma index_of_In v l : In v l -> exists i, index_of v l = Some i.
Proof.
  induction l as [|x l IH]; simpl; intros H; [contradiction|].
  destruct (String.eqb_spec v x) as [->|Hne]; [eauto|].
  destruct H as [H|H]; [congruence|].
  destruct (IH H) as [i ->]. eauto.
Qed.

Lemma affine_length xs ms ss :
  length xs = length ms -> length xs = length ss ->
  length (affine xs ms ss) = length xs.
Proof.
  revert ms ss. induction xs as [|x xs IH]; intros [|m ms] [|s ss]; simpl;
    intros H1 H2; try discriminate; [reflexivity|].
  f_equal. apply IH; congruence.
Qed.

Lemma scaler_transform_row s row Y :
  scaler_transform s [row] = Ok Y ->
  exists v, Y = [v] /\ length v = length row.
Proof.
  unfold scaler_transform. simpl. rewrite andb_true_r.
  destruct (shape_ok s row) eqn:E; [|discriminate].
  intros H; injection H as <-. eexists; split; [reflexivity|].
  unfold shape_ok in E. apply andb_true_iff in E. destruct E as [E1 E2].
  apply Nat.eqb_eq in E1, E2. apply affine_length; assumption.
Qed.

Lemma positive_spec x : positive x = true <-> (0 < x)%Q.
Proof.
  unfold positive. rewrite (Qgt_alt x 0).
  destruct (Qcompare x 0); split; congruence.
Qed.




(** ** The steps of the feature builder *)

Lemma run_prepare_features c g :
  run (prepare_features c) g =
    match run (add_encoded c (base_features c)) g with
    | Ok d =>
        match run (to_array d) g with
        | Ok X =>
            match run (scale_array X) g with
            | Ok Y => Ok Y
            | Raise e => Raise (HTTPException 500 ("Feature preparation error: " ++ str e))
            end
        | Raise e => Raise (HTTPException 500 ("Feature preparation error: " ++ str e))
        end
    | Raise e => Raise (HTTPException 500 ("Feature preparation error: " ++ str e))
    end.
Proof.
  unfold prepare_features, prepare_features_body. run_simpl.
  destruct (run (add_encoded c (base_features c)) g) as [d|e]; [|reflexivity].
  run_simpl.
  destruct (run (to_array d) g) as [X|e]; [|reflexivity].
  destruct (run (scale_array X) g); reflexivity.
Qed.

Lemma run_add_encoded_fallback c d g :
  no_encoders g -> run (add_encoded c d) g = Ok (fallback_codes c d).
Proof.
  intros [H|H]; unfold run, add_encoded, bind, read; rewrite H; reflexivity.
Qed.

Lemma run_add_encoded_full c d g p les :
  label_encoders g = Some (p :: les) ->
  run (add_encoded c d) g =
    match run (encode_with (p :: les) "contract" (contract_type c)) g with
    | Ok a =>
        match run (encode_with (p :: les) "payment" (payment_method c)) g with
        | Ok b =>
            match run (encode_with (p :: les) "internet" (internet_service c)) g with
            | Ok i =>
                Ok (dict_set
                      (dict_set (dict_set d "contract_encoded" a) "payment_encoded" b)
                      "internet_encoded" i)
            | Raise e => Raise e
            end
        | Raise e => Raise e
        end
    | Raise e => Raise e
    end.
Proof.
  intros H. unfold add_encoded. run_simpl. unfold run at 1, read. simpl. rewrite H.
  run_simpl.
  destruct (run (encode_with (p :: les) "contract" (contract_type c)) g); [|reflexivity].
  run_simpl.
  destruct (run (encode_with (p :: les) "payment" (payment_method c)) g); [|reflexivity].
  run_simpl.
  destruct (run (encode_with (p :: les) "internet" (internet_service c)) g); reflexivity.
Qed.

(** Whatever branch is taken, the dictionary handed to the array step is
    the literal of lines 97-107 extended by the three codes. *)
Lemma add_encoded_shape c g d :
  run (add_encoded c (base_features c)) g = Ok d ->
  exists a b i,
    d = dict_set
          (dict_set (dict_set (base_features c) "contract_encoded" a)
             "payment_encoded" b)
          "internet_encoded" i.
Proof.
  destruct (label_encoders g) as [[|p les]|] eqn:E.
  - rewrite run_add_encoded_fallback by (right; exact E).
    intros H; injection H as <-. unfold fallback_codes. eauto.
  - rewrite (run_add_encoded_full c _ g p les E).
    destruct (run (encode_with (p :: les) "contract" (contract_type c)) g) as [a|];
      [|discriminate].
    destruct (run (encode_with (p :: les) "payment" (payment_method c)) g) as [b|];
      [|discriminate].
    destruct (run (encode_with (p :: les) "internet" (internet_service c)) g) as [i|];
      [|discriminate].
    intros H; injection H as <-. exists a, b, i. reflexivity.
  - rewrite run_add_encoded_fallback by (left; exact E).
    intros H; injection H as <-. unfold fallback_codes. eauto.
Qed.

Lemma run_encode_with les name v g :
  run (encode_with les name v) g =
    match dict_get les name with
    | None => Raise (KeyError name)
    | Some enc =>
        match index_of v (classes_ enc) with
        | Some i => Ok (inject_Z (Z.of_nat i))
        | None => Raise (ValueError ("y contains previously unseen labels: ['" ++ v ++ "']"))
        end
    end.
Proof.
  unfold encode_with, run, bind, getitem, lift, le_transform.
  destruct (dict_get les name) as [enc|]; simpl; [|reflexivity].
  destruct (index_of v (classes_ enc)); reflexivity.
Qed.

Lemma encode_with_unknown les name v g :
  ~ known les name v -> exists e, run (encode_with les name v) g = Raise e.
Proof.
  intros H. rewrite run_encode_with.
  destruct (dict_get les name) as [enc|] eqn:E; [|eauto].
  destruct (index_of v (classes_ enc)) as [i|] eqn:Ei; [|eauto].
  exfalso. apply H. exists enc. split; [exact E|]. eapply index_of_Some; exact Ei.
Qed.

Lemma encode_with_known les name v g :
  known les name v ->
  exists i, run (encode_with les name v) g = Ok (inject_Z (Z.of_nat i)).
Proof.
  intros (enc & Henc & Hin). rewrite run_encode_with, Henc.
  destruct (index_of_In _ _ Hin) as [i ->]. eauto.
Qed.

Lemma for_each_getitem_length {V} (d : dict V) cols g row :
  run (for_each (getitem d) cols) g = Ok row -> length row = length cols.
Proof.
  revert row. induction cols as [|k cols IH]; simpl; intros row H.
  - injection H as <-. reflexivity.
  - rewrite run_bind in H by apply ro_getitem.
    destruct (run (getitem d k) g) as [v|]; [|discriminate].
    rewrite run_bind in H by (apply ro_for_each; intro; apply ro_getitem).
    destruct (run (for_each (getitem d) cols) g) as [vs|]; [|discriminate].
    injection H as <-. simpl. f_equal. apply IH. reflexivity.
Qed.

Lemma run_to_array d g :
  run (to_array d) g =
    match run (for_each (getitem d) (effective_columns g)) g with
    | Ok row => Ok [row]
    | Raise e => Raise e
    end.
Proof.
  unfold to_array, effective_columns. run_simpl.
  change (run (read feature_columns) g) with (Ok (feature_columns g)). cbv beta iota.
  destruct (feature_columns g) as [[|col cols]|]; run_simpl; reflexivity.
Qed.

Lemma run_scale_array X g :
  run (scale_array X) g =
    match scaler g with
    | Some s => scaler_transform s X
    | None => Ok X
    end.
Proof.
  unfold scale_array, run, bind, read. simpl. destruct (scaler g); reflexivity.
Qed.

Lemma vector_length c g X :
  run (prepare_features c) g = Ok X ->
  exists v, X = [v] /\ length v = length (effective_columns g).
Proof.
  rewrite run_prepare_features.
  destruct (run (add_encoded c (base_features c)) g) as [d|]; [|discriminate].
  rewrite run_to_array.
  destruct (run (for_each (getitem d) (effective_columns g)) g) as [row|] eqn:Erow;
    [|discriminate].
  apply for_each_getitem_length in Erow. rewrite run_scale_array.
  destruct (scaler g) as [s|].
  - destruct (scaler_transform s [row]) as [Y|] eqn:EY; [|discriminate].
    intros H; injection H as <-.
    destruct (scaler_transform_row s row Y EY) as (v & -> & Hv).
    exists v. split; [reflexivity | congruence].
  - intros H; injection H as <-. exists row. split; [reflexivity | exact Erow].
Qed.

Lemma prepare_features_absent c g X :
  absent g -> run (prepare_features c) g = Ok X -> X = [absent_vector c].
Proof.
  intros (Hs & Hf & Hl).
  rewrite run_prepare_features.
  rewrite run_add_encoded_fallback by (left; exact Hl).
  rewrite run_to_array. unfold effective_columns. rewrite Hf.
  unfold fallback_codes.
  cbn [base_features dict_set dict_get String.eqb Ascii.eqb Bool.eqb fallback_order
       for_each getitem run bind ret snd fst].
  rewrite run_scale_array, Hs. intros H; injection H as <-. reflexivity.
Qed.

(** ** The loader and the inference step *)

Lemma load_model_returns disk g : snd (load_model disk g) = Ok (loadable disk).
Proof.
  unfold load_model, try_except, load_model_body, loadable.
  destruct (full_artifact disk) as [[b|e]|]; simpl; try reflexivity.
  - destruct b as [[m|] [s|] [fc|] [le|]]; reflexivity.
  - destruct (simple_artifact disk) as [[m|e]|]; reflexivity.
Qed.

Lemma predict_churn_unloaded c g :
  model g = None ->
  predict_churn c g =
    (g, Raise (HTTPException 500 (str (HTTPException 500 "Model not loaded")))).
Proof.
  intros H. unfold predict_churn, try_except, predict_churn_body, bind, read.
  rewrite H. reflexivity.
Qed.

Lemma py_max_pair p0 p1 g : run (py_max [p0; p1]) g = Ok (Qmax p0 p1).
Proof. reflexivity. Qed.

Lemma predict_churn_loaded c g m X label labels p0 p1 rows :
  model g = Some m ->
  run (prepare_features c) g = Ok X ->
  predict m X = Ok (label :: labels) ->
  predict_proba m X = Ok ([p0; p1] :: rows) ->
  predict_churn c g =
    (g, Ok {| churn_prediction := bool_of_label label;
              churn_probability := p1;
              confidence := Qmax p0 p1;
              model_version := "1.0.0" |}).
Proof.
  intros Hm HX Hl Hp.
  unfold predict_churn, try_except, predict_churn_body, bind, read. rewrite Hm.
  rewrite (read_only_run _ g (ro_prepare_features c)), HX.
  unfold lift. rewrite Hl, Hp. reflexivity.
Qed.

(** * The inference step *)

(** C1. With a model loaded and a feature array built, if the model
    predicts a label for the row and a pair of class probabilities
    [p0, p1], then [predict_churn] returns the response whose
    [churn_prediction] is true exactly when the label is not zero, whose
    [churn_probability] is [p1], whose [confidence] is the greater of [p0]
    and [p1] and whose [model_version] is the text 1.0.0; when both
    probabilities lie between 0 and 1, so do the two reported numbers.  In
    particular the example record against the stub model (label 1,
    probabilities 0.3 and 0.7) yields churn true, probability 0.7,
    confidence 0.7, version 1.0.0. *)
Theorem predict_churn_result :
  (forall (c : CustomerData) (g : globals) (m : Model) (X : ndarray)
          (label : Z) (labels : list Z) (p0 p1 : Q) (rows : list (list Q)),
     model g = Some m ->
     run (prepare_features c) g = Ok X ->
     predict m X = Ok (label :: labels) ->
     predict_proba m X = Ok ([p0; p1] :: rows) ->
     exists r,
       predict_churn c g = (g, Ok r) /\
       (churn_prediction r = true <-> label <> 0) /\
       churn_probability r = p1 /\
       confidence r = Qmax p0 p1 /\
       (p0 <= confidence r)%Q /\ (p1 <= confidence r)%Q /\
       (confidence r = p0 \/ confidence r = p1) /\
       model_version r = "1.0.0" /\
       ((0 <= p0 <= 1)%Q -> (0 <= p1 <= 1)%Q ->
        (0 <= churn_probability r <= 1)%Q /\ (0 <= confidence r <= 1)%Q)) /\
  predict_churn example_record (absent_with stub_model) =
    (absent_with stub_model,
     Ok {| churn_prediction := true;
           churn_probability := (7 # 10)%Q;
           confidence := (7 # 10)%Q;
           model_version := "1.0.0" |}).
Proof.
  split; [|reflexivity].
  intros c g m X label labels p0 p1 rows Hm HX Hl Hp.
  eexists. split; [eapply predict_churn_loaded; eassumption|]. simpl.
  split; [|split; [reflexivity|split; [reflexivity|]]].
  - unfold bool_of_label. rewrite negb_true_iff, Z.eqb_neq. tauto.
  - split; [apply Q.le_max_l|]. split; [apply Q.le_max_r|].
    split; [|split; [reflexivity|]].
    + unfold Qmax, GenericMinMax.gmax. destruct (Qcompare p0 p1); auto.
    + intros [H0 H0'] [H1 H1']. split; [split; assumption|]. split.
      * apply Qle_trans with p0; [exact H0 | apply Q.le_max_l].
      * apply Q.max_lub; assumption.
Qed.

Lemma predict_churn_result_witness :
  exists r,
    predict_churn example_record (absent_with stub_model)
      = (absent_with stub_model, Ok r) /\
    churn_probability r = (7 # 10)%Q /\ confidence r = Qmax (3 # 10) (7 # 10).
Proof.
  destruct (proj1 predict_churn_result example_record (absent_with stub_model)
              stub_model _ 1 [] (3 # 10)%Q (7 # 10)%Q [] eq_refl eq_refl eq_refl eq_refl)
    as (r & Hr & _ & Hp & Hc & _).
  exists r. split; [exact Hr|]. split; [exact Hp | exact Hc].
Defined.

(** * The assembled vector *)

(** C2, as the code has it.  A vector returned by [prepare_features] is one
    row: as long as [feature_columns] when that list is loaded and not
    empty, and of length 12 when it is not loaded (or empty). *)
Theorem prepare_features_length (c : CustomerData) (g : globals) :
  (forall cols X,
     feature_columns g = Some cols -> cols <> [] ->
     run (prepare_features c) g = Ok X ->
     exists v, X = [v] /\ length v = length cols) /\
  (forall X,
     feature_columns g = None \/ feature_columns g = Some [] ->
     run (prepare_features c) g = Ok X ->
     exists v, X = [v] /\ length v = 12%nat).
Proof.
  split.
  - intros cols X Hf Hne HX. destruct (vector_length c g X HX) as (v & -> & Hv).
    exists v. split; [reflexivity|]. rewrite Hv. unfold effective_columns.
    rewrite Hf. destruct cols; [congruence | reflexivity].
  - intros X Hf HX. destruct (vector_length c g X HX) as (v & -> & Hv).
    exists v. split; [reflexivity|]. rewrite Hv. unfold effective_columns.
    destruct Hf as [-> | ->]; reflexivity.
Qed.

Lemma prepare_features_length_witness :
  (exists v, run (prepare_features example_record) trained_globals = Ok [v] /\
             length v = length trained_feature_columns) /\
  (exists v, run (prepare_features example_record) initial_globals = Ok [v] /\
             length v = 12%nat).
Proof.
  split.
  - destruct (proj1 (prepare_features_length example_record trained_globals)
                trained_feature_columns _ eq_refl ltac:(discriminate) eq_refl)
      as (v & Hv & Hlen).
    exists v. split; [rewrite <- Hv; reflexivity | exact Hlen].
  - destruct (proj2 (prepare_features_length example_record initial_globals)
                _ (or_introl eq_refl) eq_refl) as (v & Hv & Hlen).
    exists v. split; [rewrite <- Hv; reflexivity | exact Hlen].
Defined.

(** C2 does not hold as worded.  Without preprocessing metadata the row has
    12 entries, not 11; and a loaded but empty column list is not followed
    either: the row then has the 12 entries of the fallback order, not
    none. *)
Lemma absent_length_counterexample :
  ~ (forall c g X, absent g -> run (prepare_features c) g = Ok X ->
                   exists v, X = [v] /\ length v = 11%nat) /\
  ~ (forall c g cols X, feature_columns g = Some cols ->
                        run (prepare_features c) g = Ok X ->
                        exists v, X = [v] /\ length v = length cols).
Proof.
  split; intros H.
  - destruct (H example_record initial_globals _ (conj eq_refl (conj eq_refl eq_refl))
                eq_refl) as (v & Hv & Hlen).
    injection Hv as <-. discriminate Hlen.
  - destruct (H example_record empty_columns_globals [] _ eq_refl eq_refl)
      as (v & Hv & Hlen).
    injection Hv as <-. discriminate Hlen.
Qed.

(** * The two paths compared *)

Lemma contract_codes_agree v g :
  In v contract_values ->
  run (encode_with trained_label_encoders "contract" v) g
    = Ok (dict_get_default contract_mapping v 0%Q).
Proof.
  rewrite run_encode_with. unfold contract_values.
  intros [<- | [<- | [<- | []]]]; reflexivity.
Qed.

Lemma payment_codes_differ v g :
  In v payment_values ->
  run (encode_with trained_label_encoders "payment" v) g
    = Ok (code_of (classes_ (le_fit payment_values)) v) /\
  ~ (code_of (classes_ (le_fit payment_values)) v
     == dict_get_default payment_mapping v 0)%Q.
Proof.
  rewrite run_encode_with. unfold payment_values.
  intros [<- | [<- | [<- | [<- | []]]]];
    (split; [reflexivity | vm_compute; intros H; discriminate H]).
Qed.

Lemma internet_codes_differ v g :
  In v internet_values ->
  run (encode_with trained_label_encoders "internet" v) g
    = Ok (code_of (classes_ (le_fit internet_values)) v) /\
  ~ (code_of (classes_ (le_fit internet_values)) v
     == dict_get_default internet_mapping v 0)%Q.
Proof.
  rewrite run_encode_with. unfold internet_values.
  intros [<- | [<- | [<- | []]]];
    (split; [reflexivity | vm_compute; intros H; discriminate H]).
Qed.

(** C3.  The code does not do what the claim says.  The server loads the
    encoders and the twelve columns written by the training script, in the
    fallback order; for the example record the row assembled before scaling
    then carries payment code 2 and internet code 0, where the row
    assembled from the fallback tables carries 0 and 1.  For every record
    with in-domain values the contract codes of the two paths agree, while
    the payment codes differ and the internet codes differ: the tables of
    lines 117-118 are not the codes of the fitted encoders. *)
Theorem fallback_tables_disagree :
  (load_model trained_disk initial_globals = (trained_globals, Ok true) /\
   trained_feature_columns = fallback_order /\
   run (assemble example_record) trained_globals
     = Ok [[12; 50; 600; 2; 1; 1; 1; 12 # 50; 600 # 50; 0; 2; 0]%Q] /\
   run (assemble example_record) (absent_with stub_model)
     = Ok [[12; 50; 600; 2; 1; 1; 1; 12 # 50; 600 # 50; 0; 0; 1]%Q]) /\
  (forall (c : CustomerData) (g : globals),
     In (contract_type c) contract_values ->
     In (payment_method c) payment_values ->
     In (internet_service c) internet_values ->
     run (encode_with trained_label_encoders "contract" (contract_type c)) g
       = Ok (dict_get_default contract_mapping (contract_type c) 0%Q) /\
     run (encode_with trained_label_encoders "payment" (payment_method c)) g
       = Ok (code_of (classes_ (le_fit payment_values)) (payment_method c)) /\
     ~ (code_of (classes_ (le_fit payment_values)) (payment_method c)
        == dict_get_default payment_mapping (payment_method c) 0)%Q /\
     run (encode_with trained_label_encoders "internet" (internet_service c)) g
       = Ok (code_of (classes_ (le_fit internet_values)) (internet_service c)) /\
     ~ (code_of (classes_ (le_fit internet_values)) (internet_service c)
        == dict_get_default internet_mapping (internet_service c) 0)%Q).
Proof.
  split; [repeat split|].
  intros c g Hc Hp Hi.
  destruct (payment_codes_differ _ g Hp) as [Hp1 Hp2].
  destruct (internet_codes_differ _ g Hi) as [Hi1 Hi2].
  split; [apply contract_codes_agree; exact Hc|].
  split; [exact Hp1|]. split; [exact Hp2|]. split; [exact Hi1 | exact Hi2].
Qed.

Lemma fallback_tables_disagree_witness :
  run (encode_with trained_label_encoders "payment" "Electronic check") trained_globals
    = Ok 2%Q /\
  ~ (2 == dict_get_default payment_mapping "Electronic check" 0)%Q.
Proof.
  destruct (proj2 fallback_tables_disagree example_record trained_globals)
    as (_ & H1 & H2 & _).
  - left; reflexivity.
  - left; reflexivity.
  - left; reflexivity.
  - split; [exact H1 | exact H2].
Defined.

(** * The ratio features *)

(** C4. In the dictionary from which [prepare_features] assembles the
    vector, [tenure_monthly_ratio] is [tenure / monthly_charges] and
    [total_monthly_ratio] is [total_charges / monthly_charges] when
    [monthly_charges > 0]; both are 0 when [monthly_charges <= 0].  This
    holds for every record and every state of the globals; in a row
    returned without preprocessing metadata these are the entries 7 and
    8. *)
Theorem ratio_features (c : CustomerData) (g : globals) (d : dict Q) :
  run (add_encoded c (base_features c)) g = Ok d ->
  ((0 < monthly_charges c)%Q ->
   dict_get d "tenure_monthly_ratio"
     = Some (inject_Z (tenure c) / monthly_charges c)%Q /\
   dict_get d "total_monthly_ratio"
     = Some (total_charges c / monthly_charges c)%Q /\
   (forall v, absent g -> run (prepare_features c) g = Ok [v] ->
              nth_error v 7 = Some (inject_Z (tenure c) / monthly_charges c)%Q /\
              nth_error v 8 = Some (total_charges c / monthly_charges c)%Q)) /\
  ((monthly_charges c <= 0)%Q ->
   dict_get d "tenure_monthly_ratio" = Some 0%Q /\
   dict_get d "total_monthly_ratio" = Some 0%Q /\
   (forall v, absent g -> run (prepare_features c) g = Ok [v] ->
              nth_error v 7 = Some 0%Q /\ nth_error v 8 = Some 0%Q)).
Proof.
  intros H. destruct (add_encoded_shape c g d H) as (a & b & i & ->).
  assert (Hneg : (monthly_charges c <= 0)%Q -> positive (monthly_charges c) = false).
  { intros Hm. destruct (positive (monthly_charges c)) eqn:E; [|reflexivity].
    apply positive_spec in E. exfalso. revert E. apply Qle_not_lt. exact Hm. }
  simpl. split; intros Hm.
  - apply positive_spec in Hm. rewrite Hm. split; [reflexivity|]. split; [reflexivity|].
    intros v Ha Hv. apply (prepare_features_absent c g _ Ha) in Hv.
    injection Hv as ->. unfold absent_vector. simpl. rewrite Hm. split; reflexivity.
  - rewrite (Hneg Hm). split; [reflexivity|]. split; [reflexivity|].
    intros v Ha Hv. apply (prepare_features_absent c g _ Ha) in Hv.
    injection Hv as ->. unfold absent_vector. simpl. rewrite (Hneg Hm).
    split; reflexivity.
Qed.

Lemma ratio_features_witness :
  dict_get (fallback_codes example_record (base_features example_record))
    "tenure_monthly_ratio" = Some (inject_Z 12 / 50)%Q /\
  dict_get (fallback_codes free_record (base_features free_record))
    "total_monthly_ratio" = Some 0%Q.
Proof.
  split.
  - exact (proj1 (proj1 (ratio_features example_record initial_globals _ eq_refl)
                    eq_refl)).
  - refine (proj1 (proj2 (proj2 (ratio_features free_record initial_globals _ eq_refl)
                            _))).
    discriminate.
Defined.

(** * The encoder-backed branch *)

(** C5. With label encoders loaded, a record one of whose three
    categorical values is outside the known set of its encoder makes
    [prepare_features] raise the status-500 feature-preparation error; no
    vector, and so no default code, is produced. *)
Theorem unknown_category_fails (c : CustomerData) (g : globals)
    (les : dict LabelEncoder) :
  label_encoders g = Some les ->
  les <> [] ->
  ~ known les "contract" (contract_type c) \/
  ~ known les "payment" (payment_method c) \/
  ~ known les "internet" (internet_service c) ->
  exists msg,
    prepare_features c g =
      (g, Raise (HTTPException 500 ("Feature preparation error: " ++ msg))).
Proof.
  intros Hle Hne Hunknown.
  destruct les as [|p les]; [congruence|].
  rewrite (read_only_run _ g (ro_prepare_features c)).
  rewrite run_prepare_features, (run_add_encoded_full c _ g p les Hle).
  assert (Hraise : forall name v,
             ~ known (p :: les) name v ->
             exists e, run (encode_with (p :: les) name v) g = Raise e)
    by (intros; apply encode_with_unknown; assumption).
  destruct Hunknown as [H | [H | H]]; apply Hraise in H; destruct H as [e He].
  - rewrite He. eauto.
  - rewrite He.
    destruct (run (encode_with (p :: les) "contract" (contract_type c)) g); eauto.
  - rewrite He.
    destruct (run (encode_with (p :: les) "contract" (contract_type c)) g); [|eauto].
    destruct (run (encode_with (p :: les) "payment" (payment_method c)) g); eauto.
Qed.

Lemma unknown_category_fails_witness :
  exists msg,
    prepare_features weekly_record trained_globals =
      (trained_globals, Raise (HTTPException 500 ("Feature preparation error: " ++ msg))).
Proof.
  apply (unknown_category_fails weekly_record trained_globals trained_label_encoders).
  - reflexivity.
  - discriminate.
  - left. intros (enc & Henc & Hin). vm_compute in Henc.
    injection Henc as <-. simpl in Hin.
    destruct Hin as [H | [H | [H | []]]]; discriminate H.
Defined.

(** * The fallback tables *)



(** * The loader *)

(** C7. [load_model] always returns a boolean and never lets an exception
    escape: its result is [true] exactly in the [loadable] outcomes, and
    [false] in every other one (missing or unreadable file, missing bundle
    slot); the startup hook returns in every case.  Whenever the global
    [model] is [None], [health_check] reports [model_loaded = false] and
    every call of [predict_churn], whatever the record, ends in the
    status-500 exception carrying the text of the [Model not loaded]
    rejection, leaving the globals as they were. *)
Theorem load_fails_soft (disk : storage) (g : globals) (c : CustomerData) :
  snd (load_model disk g) = Ok (loadable disk) /\
  snd (startup_event disk g) = Ok tt /\
  (forall e, snd (load_model_body disk g) = Raise e ->
             snd (load_model disk g) = Ok false) /\
  (model g = None ->
   (exists r, health_check g = (g, Ok r) /\ model_loaded r = false) /\
   predict_churn c g =
     (g, Raise (HTTPException 500 (str (HTTPException 500 "Model not loaded"))))).
Proof.
  split; [apply load_model_returns|]. split; [|split].
  - pose proof (load_model_returns disk g) as H. unfold startup_event, bind.
    destruct (load_model disk g) as [g' r]. simpl in H. subst r. reflexivity.
  - intros e He. unfold load_model, try_except.
    destruct (load_model_body disk g) as [g' r]. simpl in He. subst r. reflexivity.
  - intros H. split; [|apply predict_churn_unloaded; exact H].
    unfold health_check, bind, read, ret. rewrite H. eexists; split; reflexivity.
Qed.

Lemma load_fails_soft_witness :
  snd (load_model {| full_artifact := None; simple_artifact := None |} initial_globals)
    = Ok false /\
  predict_churn example_record initial_globals =
    (initial_globals, Raise (HTTPException 500 "500: Model not loaded")).
Proof.
  destruct (load_fails_soft {| full_artifact := None; simple_artifact := None |}
              initial_globals example_record) as [H1 [_ [_ H3]]].
  split; [exact H1 | exact (proj2 (H3 eq_refl))].
Defined.




(** * Two invocations of the feature builder *)

Section TwoRuns.

Variable lib : Type.
Variable encoder_transform :
  LabelEncoder -> list string -> lib -> lib * result (list Q).
Variable scaler_call : StandardScaler -> ndarray -> lib -> lib * result ndarray.

(** What the library is relied on for: the result of a transform is
    determined by the fitted object and the argument, whatever state the
    library is in. *)
Hypothesis encoder_result_stable :
  forall enc ys l l',
    snd (encoder_transform enc ys l) = snd (encoder_transform enc ys l').
Hypothesis scaler_result_stable :
  forall sc X l l', snd (scaler_call sc X l) = snd (scaler_call sc X l').

Lemma stable_ret {A} (a : A) : stable (@ret_w lib A a).
Proof.
  intros w w' H. simpl. repeat split. exists []. symmetry. apply app_nil_r.
Qed.

Lemma stable_raise {A} e : stable (@raise_w lib A e).
Proof.
  intros w w' H. simpl. repeat split. exists []. symmetry. apply app_nil_r.
Qed.

Lemma stable_lift {A} (r : result A) : stable (@lift_w lib A r).
Proof.
  intros w w' H. simpl. repeat split. exists []. symmetry. apply app_nil_r.
Qed.

Lemma stable_read {A} (field : globals -> A) : stable (@read_w lib A field).
Proof.
  intros w w' H. simpl. rewrite H. repeat split. exists []. symmetry. apply app_nil_r.
Qed.

Lemma stable_logger_error msg : stable (@logger_error lib msg).
Proof. intros w w' H. simpl. repeat split. exists [msg]. reflexivity. Qed.

Lemma stable_bind {A B} (m : W lib A) (f : A -> W lib B) :
  stable m -> (forall a, stable (f a)) -> stable (bind_w m f).
Proof.
  intros Hm Hf w w' H.
  destruct (Hm w w' H) as (Hr & Hg & en & Hl).
  destruct (Hm w' w' eq_refl) as (_ & Hg' & _).
  unfold bind_w. destruct (m w) as [w1 r1], (m w') as [w1' r1']. simpl in *.
  subst r1'. destruct r1 as [a|e]; simpl.
  - destruct (Hf a w1 w1') as (Hr2 & Hg2 & en2 & Hl2); [congruence|].
    split; [exact Hr2|]. split; [congruence|].
    exists (en ++ en2)%list. rewrite Hl2, Hl. symmetry. apply app_assoc.
  - split; [reflexivity|]. split; [exact Hg|]. exists en. exact Hl.
Qed.

Lemma stable_try {A} (m : W lib A) (h : exn -> W lib A) :
  stable m -> (forall e, stable (h e)) -> stable (try_w m h).
Proof.
  intros Hm Hh w w' H.
  destruct (Hm w w' H) as (Hr & Hg & en & Hl).
  destruct (Hm w' w' eq_refl) as (_ & Hg' & _).
  unfold try_w. destruct (m w) as [w1 r1], (m w') as [w1' r1']. simpl in *.
  subst r1'. destruct r1 as [a|e]; simpl.
  - split; [reflexivity|]. split; [exact Hg|]. exists en. exact Hl.
  - destruct (Hh e w1 w1') as (Hr2 & Hg2 & en2 & Hl2); [congruence|].
    split; [exact Hr2|]. split; [congruence|].
    exists (en ++ en2)%list. rewrite Hl2, Hl. symmetry. apply app_assoc.
Qed.

Lemma stable_call_encoder enc ys :
  stable (call_encoder lib encoder_transform enc ys).
Proof.
  intros w w' H. unfold call_encoder.
  pose proof (encoder_result_stable enc ys (w_lib w) (w_lib w')) as Hr.
  destruct (encoder_transform enc ys (w_lib w)) as [l r],
           (encoder_transform enc ys (w_lib w')) as [l' r'].
  simpl in *. repeat split; [exact Hr|]. exists []. symmetry. apply app_nil_r.
Qed.

Lemma stable_call_scaler sc X : stable (call_scaler lib scaler_call sc X).
Proof.
  intros w w' H. unfold call_scaler.
  pose proof (scaler_result_stable sc X (w_lib w) (w_lib w')) as Hr.
  destruct (scaler_call sc X (w_lib w)) as [l r], (scaler_call sc X (w_lib w')) as [l' r'].
  simpl in *. repeat split; [exact Hr|]. exists []. symmetry. apply app_nil_r.
Qed.

Lemma stable_encode_with_w les name v :
  stable (encode_with_w lib encoder_transform les name v).
Proof.
  unfold encode_with_w.
  apply stable_bind; [apply stable_lift | intros enc].
  apply stable_bind; [apply stable_call_encoder | intros codes]. apply stable_lift.
Qed.

Lemma stable_add_encoded_w c d : stable (add_encoded_w lib encoder_transform c d).
Proof.
  unfold add_encoded_w. apply stable_bind; [apply stable_read | intros encoders].
  destruct encoders as [[|p les]|]; try apply stable_ret.
  apply stable_bind; [apply stable_encode_with_w | intros a].
  apply stable_bind; [apply stable_encode_with_w | intros b].
  apply stable_bind; [apply stable_encode_with_w | intros i]. apply stable_ret.
Qed.

Lemma stable_to_array_w d : stable (to_array_w lib d).
Proof.
  unfold to_array_w. apply stable_bind; [apply stable_read | intros columns].
  destruct columns as [[|col cols]|];
    (apply stable_bind; [apply stable_lift | intros row; apply stable_ret]).
Qed.

Lemma stable_scale_array_w X : stable (scale_array_w lib scaler_call X).
Proof.
  unfold scale_array_w. apply stable_bind; [apply stable_read | intros sc].
  destruct sc; [apply stable_call_scaler | apply stable_ret].
Qed.

Lemma stable_prepare_features_w c :
  stable (prepare_features_w lib encoder_transform scaler_call c).
Proof.
  unfold prepare_features_w. apply stable_try.
  - apply stable_bind; [apply stable_add_encoded_w | intros d].
    apply stable_bind; [apply stable_to_array_w | intros X].
    apply stable_scale_array_w.
  - intros e. apply stable_bind; [apply stable_logger_error | intros _].
    apply stable_raise.
Qed.

(** C9. [prepare_features] is written out with what it can touch: the
    globals, the log of [logger.error] and the state behind the library's
    transforms.  Provided the result of a transform is determined by the
    fitted object and its argument, two invocations on the same record
    return the same outcome, the same vector when the first returns one,
    although the second starts in the world the first has left (a longer
    log after a failure, another library state); neither changes the
    globals, and the outcome is the same in any world with these
    globals. *)
Theorem prepare_features_two_runs (c : CustomerData) (w : world lib) :
  let call := prepare_features_w lib encoder_transform scaler_call c in
  let first := call w in
  let second := call (fst first) in
  snd second = snd first /\
  (forall X, snd first = Ok X -> snd second = Ok X) /\
  w_globals (fst first) = w_globals w /\
  w_globals (fst second) = w_globals w /\
  (exists entries, w_log (fst first) = (w_log w ++ entries)%list) /\
  (forall w', w_globals w' = w_globals w -> snd (call w') = snd first).
Proof.
  simpl.
  destruct (stable_prepare_features_w c w w eq_refl) as (_ & Hg & Hlog).
  destruct (stable_prepare_features_w c
              (fst (prepare_features_w lib encoder_transform scaler_call c w)) w Hg)
    as (Hr2 & Hg2 & _).
  split; [exact Hr2|]. split; [intros X HX; rewrite Hr2; exact HX|].
  split; [exact Hg|]. split; [congruence|]. split; [exact Hlog|].
  intros w' Hw'. apply (stable_prepare_features_w c w' w Hw').
Qed.

End TwoRuns.

Lemma select_columns_for_each {V} (d : dict V) cols g :
  run (for_each (getitem d) cols) g = select_columns d cols.
Proof.
  induction cols as [|k cols IH]; simpl; [reflexivity|].
  rewrite run_bind by apply ro_getitem. unfold getitem at 1.
  destruct (dict_get d k) as [v|]; [|reflexivity].
  unfold run at 1, ret. simpl.
  rewrite run_bind by (apply ro_for_each; intro; apply ro_getitem).
  rewrite IH. destruct (select_columns d cols); reflexivity.
Qed.

Lemma refines_ret {A} (a : A) : refines (ret_w a) (ret a).
Proof. intros w. split; reflexivity. Qed.

Lemma refines_raise {A} e : refines (@raise_w unit A e) (raise e).
Proof. intros w. split; reflexivity. Qed.

Lemma refines_lift {A} (r : result A) : refines (lift_w r) (lift r).
Proof. intros w. split; reflexivity. Qed.

Lemma refines_read {A} (field : globals -> A) : refines (read_w field) (read field).
Proof. intros w. split; reflexivity. Qed.

Lemma refines_bind {A B} (mw : W unit A) (m : M A) (fw : A -> W unit B) (f : A -> M B) :
  read_only m -> refines mw m -> (forall a, refines (fw a) (f a)) ->
  refines (bind_w mw fw) (bind m f).
Proof.
  intros Hro Hm Hf w. rewrite run_bind by exact Hro.
  destruct (Hm w) as [Hr Hg]. unfold bind_w.
  destruct (mw w) as [w1 r1]. simpl in Hr, Hg. rewrite <- Hr.
  destruct r1 as [a|e]; [|split; [reflexivity | exact Hg]].
  destruct (Hf a w1) as [Hr2 Hg2]. rewrite Hg in Hr2, Hg2. split; assumption.
Qed.

Lemma refines_try {A} (mw : W unit A) (m : M A) (hw : exn -> W unit A) (h : exn -> M A) :
  read_only m -> refines mw m -> (forall e, refines (hw e) (h e)) ->
  refines (try_w mw hw) (try_except m h).
Proof.
  intros Hro Hm Hh w. rewrite run_try by exact Hro.
  destruct (Hm w) as [Hr Hg]. unfold try_w.
  destruct (mw w) as [w1 r1]. simpl in Hr, Hg. rewrite <- Hr.
  destruct r1 as [a|e]; [split; [reflexivity | exact Hg]|].
  destruct (Hh e w1) as [Hr2 Hg2]. rewrite Hg in Hr2, Hg2. split; assumption.
Qed.

Lemma refines_getitem {V} (d : dict V) k : refines (lift_w (dict_getitem d k)) (getitem d k).
Proof.
  intros w. unfold lift_w, dict_getitem, getitem.
  destruct (dict_get d k); split; reflexivity.
Qed.

Lemma refines_item {A} (l : list A) : refines (lift_w (first_item l)) (item l 0).
Proof.
  intros w. unfold lift_w, first_item, item.
  destruct (nth_error l 0); split; reflexivity.
Qed.

Lemma refines_encode_with les name v :
  refines (encode_with_w unit pure_encoder_transform les name v) (encode_with les name v).
Proof.
  unfold encode_with_w, encode_with.
  apply refines_bind; [apply ro_getitem | apply refines_getitem | intros enc].
  apply refines_bind; [apply ro_lift | | intros codes; apply refines_item].
  intros w. split; reflexivity.
Qed.

Lemma refines_add_encoded c d :
  refines (add_encoded_w unit pure_encoder_transform c d) (add_encoded c d).
Proof.
  unfold add_encoded_w, add_encoded.
  apply refines_bind; [apply ro_read | apply refines_read | intros encoders].
  destruct encoders as [[|p les]|]; try apply refines_ret.
  apply refines_bind; [apply ro_encode_with | apply refines_encode_with | intros a].
  apply refines_bind; [apply ro_encode_with | apply refines_encode_with | intros b].
  apply refines_bind; [apply ro_encode_with | apply refines_encode_with | intros i].
  apply refines_ret.
Qed.

Lemma refines_select_columns (d : dict Q) cols :
  refines (lift_w (select_columns d cols)) (for_each (getitem d) cols).
Proof.
  intros w. split; [|reflexivity]. simpl. symmetry. apply select_columns_for_each.
Qed.

Lemma refines_to_array d : refines (to_array_w unit d) (to_array d).
Proof.
  unfold to_array_w, to_array.
  apply refines_bind; [apply ro_read | apply refines_read | intros columns].
  destruct columns as [[|col cols]|];
    (apply refines_bind;
     [ apply (ro_for_each (getitem d)); intro; apply ro_getitem
     | apply refines_select_columns
     | intros row; apply refines_ret ]).
Qed.

Lemma refines_scale_array X :
  refines (scale_array_w unit pure_scaler_call X) (scale_array X).
Proof.
  unfold scale_array_w, scale_array.
  apply refines_bind; [apply ro_read | apply refines_read | intros sc].
  destruct sc as [sc|]; [|apply refines_ret]. intros w. split; reflexivity.
Qed.

(** With the library that keeps no state, the builder written out with its
    effects returns what [prepare_features] returns. *)
Lemma prepare_features_w_pure c :
  refines (prepare_features_w unit pure_encoder_transform pure_scaler_call c)
          (prepare_features c).
Proof.
  unfold prepare_features_w, prepare_features, prepare_features_body.
  apply refines_try.
  - apply ro_prepare_features_body.
  - apply refines_bind; [apply ro_add_encoded | apply refines_add_encoded | intros d].
    apply refines_bind; [apply ro_to_array | apply refines_to_array | intros X].
    apply refines_scale_array.
  - intros e w. split; reflexivity.
Qed.

Lemma prepare_features_two_runs_witness :
  let call := prepare_features_w unit pure_encoder_transform pure_scaler_call
                example_record in
  let first := call (fresh_world trained_globals tt) in
  snd (call (fst first)) = snd first /\
  snd first = run (prepare_features example_record) trained_globals /\
  exists v, snd first = Ok [v] /\ length v = 12%nat /\ nth_error v 0 = Some (11 # 2)%Q.
Proof.
  split; [|split].
  - refine (proj1 (prepare_features_two_runs unit pure_encoder_transform
                     pure_scaler_call _ _ example_record
                     (fresh_world trained_globals tt))).
    + intros enc ys l l'. reflexivity.
    + intros sc X l l'. reflexivity.
  - exact (proj1 (prepare_features_w_pure example_record
                    (fresh_world trained_globals tt))).
  - eexists. split; [reflexivity|]. split; reflexivity.
Defined.

(** The assumption on the library is needed: with an encoder that lets a
    call counter into its codes the second invocation returns another
    vector than the first.  And a failing invocation does change the world:
    it leaves one more record in the log. *)
Lemma two_runs_need_stable_library :
  let call := prepare_features_w nat counting_encoder_transform ignoring_scaler_call
                example_record in
  snd (call (fst (call (fresh_world trained_globals 0%nat))))
    <> snd (call (fresh_world trained_globals 0%nat)) /\
  w_log (fst (prepare_features_w unit pure_encoder_transform pure_scaler_call
                weekly_record (fresh_world trained_globals tt)))
    = [ "Error preparing features: y contains previously unseen labels: ['Weekly']" ].
Proof.
  split; [|reflexivity]. vm_compute. intros H. discriminate H.
Qed.

(** * The readiness probe *)

(** C10. [health_check] tests the loaded object twice: [model is not None]
    for [model_loaded] and the truth value of the object for [model_type].
    An ensemble that was stored before fitting is loaded by [load_model]
    with result [True], and its truth value is its length, which reads the
    missing [estimators_]: [health_check] then raises [AttributeError]
    instead of answering.  In general the probe leaves the globals alone
    and answers with status [healthy] and [model_loaded] true exactly for a
    loaded object whenever the truth test of the object returns; it raises
    what the truth test raises otherwise; and a loaded object that is
    falsy is reported with [model_loaded = True] and no [model_type]. *)
Theorem health_check_truth_test :
  load_model unfitted_disk initial_globals = (absent_with unfitted_forest, Ok true) /\
  health_check (absent_with unfitted_forest)
    = (absent_with unfitted_forest,
       Raise (AttributeError
                "'RandomForestClassifier' object has no attribute 'estimators_'")) /\
  forall g : globals,
    (model g = None ->
     health_check g
       = (g, Ok {| status := "healthy"; model_loaded := false; model_type := None |})) /\
    (forall m b, model g = Some m -> truth m = Ok b ->
       health_check g
         = (g, Ok {| status := "healthy"; model_loaded := true;
                     model_type := if b then Some (type_name m) else None |})) /\
    (forall m e, model g = Some m -> truth m = Raise e ->
       health_check g = (g, Raise e)).
Proof.
  split; [reflexivity|]. split; [reflexivity|].
  intros g. unfold health_check, bind, read, ret, model_type_entry, lift.
  repeat split.
  - intros H. rewrite H. reflexivity.
  - intros m b H Hb. rewrite H, Hb. reflexivity.
  - intros m e H He. rewrite H, He. reflexivity.
Qed.

Lemma health_check_truth_test_witness :
  health_check trained_globals
    = (trained_globals,
       Ok {| status := "healthy"; model_loaded := true;
             model_type := Some "StubModel" |}) /\
  health_check initial_globals
    = (initial_globals,
       Ok {| status := "healthy"; model_loaded := false; model_type := None |}).
Proof.
  destruct health_check_truth_test as (_ & _ & H).
  split.
  - exact (proj1 (proj2 (H trained_globals)) stub_model true eq_refl eq_refl).
  - exact (proj1 (H initial_globals) eq_refl).
Defined.

(** * Further properties of the loader *)

(** When the primary path exists, the secondary file plays no part: the
    outcome of [load_model] is the same whatever is stored there, and a
    primary file that cannot be read makes the load fail with the globals
    untouched even if a good bare model is available. *)
Theorem full_layout_shadows_simple (disk : storage)
    (other : option (result (option Model))) (g : globals) :
  full_artifact disk <> None ->
  load_model {| full_artifact := full_artifact disk; simple_artifact := other |} g
    = load_model disk g /\
  (forall e, full_artifact disk = Some (Raise e) -> load_model disk g = (g, Ok false)).
Proof.
  intros Hfull. unfold load_model, try_except, load_model_body. simpl.
  destruct (full_artifact disk) as [[b|e]|]; [| |congruence].
  - split; [reflexivity | intros e He; discriminate He].
  - split; [reflexivity | intros e' _; reflexivity].
Qed.

Lemma full_layout_shadows_simple_witness :
  load_model {| full_artifact := full_artifact corrupt_full_disk;
                simple_artifact := None |} initial_globals
    = load_model corrupt_full_disk initial_globals /\
  load_model corrupt_full_disk initial_globals = (initial_globals, Ok false).
Proof.
  destruct (full_layout_shadows_simple corrupt_full_disk None initial_globals) as [H1 H2].
  - discriminate.
  - split; [exact H1 | exact (H2 _ eq_refl)].
Defined.

(** A load that returns [True] has taken one of two shapes.  Either the
    bundle had its four keys and the four globals now hold the values
    stored under them, whatever these are, [None] included; or the primary
    path did not exist, the object of the secondary file (which may be
    [None] as well) was read into [model], and the three preprocessing
    globals are what they were before the call.  So [True] does not say
    that a model is loaded: a bundle that stores [None] under [model]
    loads with [True] and leaves [model] at [None]. *)
Theorem load_success_states (disk : storage) (g : globals) :
  snd (load_model disk g) = Ok true ->
  (exists m sc cols les,
     full_artifact disk
       = Some (Ok {| b_model := Some m; b_scaler := Some sc;
                     b_feature_columns := Some cols; b_label_encoders := Some les |}) /\
     fst (load_model disk g)
       = {| model := m; scaler := sc; feature_columns := cols;
            label_encoders := les |}) \/
  (exists m,
     full_artifact disk = None /\ simple_artifact disk = Some (Ok m) /\
     fst (load_model disk g)
       = {| model := m; scaler := scaler g;
            feature_columns := feature_columns g;
            label_encoders := label_encoders g |}).
Proof.
  unfold load_model, try_except, load_model_body.
  destruct (full_artifact disk) as [[b|e]|]; simpl.
  - destruct b as [[m|] [sc|] [cols|] [les|]]; simpl; intros H; try discriminate H.
    left. exists m, sc, cols, les. split; reflexivity.
  - intros H; discriminate H.
  - destruct (simple_artifact disk) as [[m|e]|]; simpl; intros H; try discriminate H.
    right. exists m. repeat split.
Qed.

Lemma load_success_states_witness :
  fst (load_model simple_only_disk trained_globals)
    = {| model := Some stub_model; scaler := Some demo_scaler;
         feature_columns := Some trained_feature_columns;
         label_encoders := Some trained_label_encoders |} /\
  load_model modelless_disk trained_globals = (initial_globals, Ok true).
Proof.
  split; [|reflexivity].
  destruct (load_success_states simple_only_disk trained_globals eq_refl)
    as [(m & sc & cols & les & H & _) | (m & _ & Hm & Hg)].
  - discriminate H.
  - injection Hm as <-. exact Hg.
Defined.

(** Loading again from the same files changes nothing: the second call
    returns the same boolean and leaves the globals of the first. *)
Theorem load_model_idempotent (disk : storage) (g : globals) :
  load_model disk (fst (load_model disk g))
    = (fst (load_model disk g), snd (load_model disk g)).
Proof.
  unfold load_model, try_except, load_model_body.
  destruct (full_artifact disk) as [[b|e]|]; simpl; try reflexivity.
  - destruct b as [[m|] [sc|] [cols|] [les|]]; reflexivity.
  - destruct (simple_artifact disk) as [[m|e]|]; reflexivity.
Qed.

(** * The model description endpoint *)

Lemma ro_model_info : read_only model_info.
Proof.
  unfold model_info. ro_step; [auto with ro|].
  destruct a as [mdl|]; [|apply ro_raise]. repeat ro_step.
Qed.

(** [model_info] answers exactly when the global [model] is not [None],
    and whenever [health_check] answers, its [model_loaded] says whether
    [model_info] does.  Without a model [model_info] raises the status-500
    exception with the detail [Model not loaded], unwrapped.  With a model
    it reports the model's type (without the truth test of [health_check]),
    whether a scaler is loaded, and as [features_used] the very columns
    [prepare_features] iterates over: the loaded list when it is not
    empty, the default features otherwise. *)
Theorem model_info_describes_state (g : globals) :
  (model g = None ->
   model_info g = (g, Raise (HTTPException 500 "Model not loaded"))) /\
  (forall m, model g = Some m ->
     exists r,
       model_info g = (g, Ok r) /\
       info_model_type r = type_name m /\
       info_model_version r = "1.0.0" /\
       (has_preprocessing r = true <-> populated (scaler g)) /\
       effective_columns g = match features_used r with
                             | FeatureNames cols => cols
                             | DefaultFeatures => fallback_order
                             end /\
       (features_used r = DefaultFeatures <->
        feature_columns g = None \/ feature_columns g = Some [])) /\
  ((exists r, run model_info g = Ok r) <-> model g <> None) /\
  (forall h, run health_check g = Ok h ->
     (model_loaded h = true <-> exists r, run model_info g = Ok r)).
Proof.
  unfold model_info, health_check, run, bind, read, ret, raise, populated,
    effective_columns, model_type_entry, lift.
  destruct (model g) as [m|] eqn:Em; simpl.
  - split; [intros H; discriminate H|]. split.
    + intros m' Hm'. injection Hm' as <-. eexists. split; [reflexivity|]. simpl.
      split; [reflexivity|]. split; [reflexivity|]. split.
      * destruct (scaler g); split; congruence.
      * destruct (feature_columns g) as [[|col cols]|]; split; try reflexivity;
          split; try congruence; try tauto; intros [H|H]; discriminate H.
    + split.
      * split; [intros _; discriminate | intros _; eexists; reflexivity].
      * intros h Hh. destruct (truth m) as [b|e]; simpl in Hh; [|discriminate Hh].
        injection Hh as <-. simpl. split; intros _; [eexists|]; reflexivity.
  - split; [reflexivity|]. split; [intros m' Hm'; discriminate Hm'|]. split.
    + split; [intros [r H]; discriminate H | intros H; contradiction H; reflexivity].
    + intros h Hh. injection Hh as <-. simpl.
      split; [intros H; discriminate H | intros [r H]; discriminate H].
Qed.

Lemma model_info_describes_state_witness :
  model_info initial_globals
    = (initial_globals, Raise (HTTPException 500 "Model not loaded")) /\
  (exists r, model_info trained_globals = (trained_globals, Ok r) /\
             features_used r = FeatureNames trained_feature_columns).
Proof.
  split.
  - exact (proj1 (model_info_describes_state initial_globals) eq_refl).
  - destruct (proj1 (proj2 (model_info_describes_state trained_globals))
                stub_model eq_refl) as (r & Hr & _).
    exists r. split; [exact Hr|]. injection Hr as <-. reflexivity.
Defined.

(** * Further properties of the inference step *)

Lemma fold_max_spec xs : forall x,
  let r := fold_left (fun best y => match Qcompare best y with
                                    | Lt => y
                                    | _ => best
                                    end) xs x in
  In r (x :: xs) /\ (x <= r)%Q /\ (forall y, In y xs -> (y <= r)%Q).
Proof.
  induction xs as [|z xs IH]; intros x; simpl.
  - split; [left; reflexivity|]. split; [apply Qle_refl | intros y []].
  - destruct (Qcompare x z) eqn:E.
    + destruct (IH x) as (Hin & Hle & Hall).
      split; [destruct Hin as [H|H]; [left; exact H | right; right; exact H]|].
      split; [exact Hle|]. intros y [<-|Hy]; [|apply Hall; exact Hy].
      apply Qeq_alt in E. apply Qle_trans with x; [|exact Hle].
      rewrite E. apply Qle_refl.
    + destruct (IH z) as (Hin & Hle & Hall).
      split; [right; exact Hin|].
      split; [apply Qle_trans with z; [apply Qlt_le_weak, Qlt_alt; exact E | exact Hle]|].
      intros y [<-|Hy]; [exact Hle | apply Hall; exact Hy].
    + destruct (IH x) as (Hin & Hle & Hall).
      split; [destruct Hin as [H|H]; [left; exact H | right; right; exact H]|].
      split; [exact Hle|]. intros y [<-|Hy]; [|apply Hall; exact Hy].
      apply Qle_trans with x; [|exact Hle]. apply Qlt_le_weak, Qgt_alt. exact E.
Qed.

Lemma py_max_spec l g mx :
  run (py_max l) g = Ok mx -> In mx l /\ (forall y, In y l -> (y <= mx)%Q).
Proof.
  destruct l as [|x xs]; [discriminate|].
  unfold run, py_max, ret. simpl. intros H; injection H as <-.
  destruct (fold_max_spec xs x) as (Hin & Hle & Hall).
  split; [exact Hin|]. intros y [<-|Hy]; [exact Hle | apply Hall; exact Hy].
Qed.

Lemma predict_churn_inversion c g r :
  run (predict_churn c) g = Ok r ->
  exists m X label labels row rows p1 mx,
    model g = Some m /\
    run (prepare_features c) g = Ok X /\
    predict m X = Ok (label :: labels) /\
    predict_proba m X = Ok (row :: rows) /\
    nth_error row 1 = Some p1 /\
    run (py_max row) g = Ok mx /\
    r = {| churn_prediction := bool_of_label label; churn_probability := p1;
           confidence := mx; model_version := "1.0.0" |}.
Proof.
  unfold run at 1. unfold predict_churn, try_except, predict_churn_body, bind, read.
  destruct (model g) as [m|] eqn:Em; [|discriminate].
  rewrite (read_only_run _ g (ro_prepare_features c)).
  destruct (run (prepare_features c) g) as [X|] eqn:EX; [|discriminate].
  unfold lift. destruct (predict m X) as [[|label labels]|] eqn:El; try discriminate.
  simpl. destruct (predict_proba m X) as [[|row rows]|] eqn:Ep; try discriminate.
  simpl. unfold item at 1. destruct (nth_error row 1) as [p1|] eqn:E1; [|discriminate].
  simpl. rewrite (read_only_run _ g (ro_py_max row)).
  destruct (run (py_max row) g) as [mx|] eqn:Emx; [|discriminate].
  simpl. intros H; injection H as <-.
  exists m, X, label, labels, row, rows, p1, mx. repeat split; assumption.
Qed.

(** Every response of [predict_churn] was computed from a loaded model and
    a built feature array: its probability is entry 1 of the model's first
    probability row, its confidence is an entry of that row that no entry
    exceeds, whatever the number of classes, so the reported probability
    never exceeds the reported confidence; the version is always 1.0.0 and
    the globals are unchanged. *)
Theorem response_probability_below_confidence (c : CustomerData) (g : globals)
    (r : PredictionResponse) :
  run (predict_churn c) g = Ok r ->
  predict_churn c g = (g, Ok r) /\
  (churn_probability r <= confidence r)%Q /\
  model_version r = "1.0.0" /\
  exists m X row rows,
    model g = Some m /\ run (prepare_features c) g = Ok X /\
    predict_proba m X = Ok (row :: rows) /\
    nth_error row 1 = Some (churn_probability r) /\
    In (confidence r) row /\
    (forall p, In p row -> (p <= confidence r)%Q).
Proof.
  intros H. split.
  { rewrite (read_only_run _ g (ro_predict_churn c)), H. reflexivity. }
  destruct (predict_churn_inversion c g r H)
    as (m & X & label & labels & row & rows & p1 & mx
        & Hm & HX & _ & Hp & H1 & Hmx & ->).
  destruct (py_max_spec row g mx Hmx) as [Hin Hall]. simpl.
  split; [apply Hall; eapply nth_error_In; exact H1|].
  split; [reflexivity|].
  exists m, X, row, rows. repeat split; assumption.
Qed.

Lemma response_probability_below_confidence_witness :
  exists r,
    predict_churn example_record (absent_with stub_model)
      = (absent_with stub_model, Ok r) /\
    (churn_probability r <= confidence r)%Q.
Proof.
  eexists.
  pose proof (response_probability_below_confidence example_record
                (absent_with stub_model) _ eq_refl) as H.
  exact (conj (proj1 H) (proj1 (proj2 H))).
Defined.

(** A model whose probability row has fewer than two entries, a
    single-class model for instance, never yields a response: the request
    ends in a status-500 exception. *)
Theorem short_probability_row_fails (c : CustomerData) (g : globals) (m : Model)
    (X : ndarray) (row : list Q) (rows : list (list Q)) :
  model g = Some m ->
  run (prepare_features c) g = Ok X ->
  predict_proba m X = Ok (row :: rows) ->
  (length row < 2)%nat ->
  exists detail, predict_churn c g = (g, Raise (HTTPException 500 detail)).
Proof.
  intros Hm HX Hp Hlen.
  rewrite (read_only_run _ g (ro_predict_churn c)).
  destruct (run (predict_churn c) g) as [r|e] eqn:E.
  - exfalso.
    destruct (predict_churn_inversion c g r E)
      as (m' & X' & label & labels & row' & rows' & p1 & mx
          & Hm' & HX' & _ & Hp' & H1 & _).
    rewrite Hm in Hm'. injection Hm' as <-. rewrite HX in HX'. injection HX' as <-.
    rewrite Hp in Hp'. injection Hp' as <- <-.
    assert (Hnone : nth_error row 1 = None) by (apply nth_error_None; lia).
    congruence.
  - revert E. unfold run, predict_churn, try_except.
    destruct (predict_churn_body c g) as [g' [r|e']]; simpl; [discriminate|].
    intros H; injection H as <-. eauto.
Qed.

Lemma short_probability_row_fails_witness :
  exists detail,
    predict_churn example_record (absent_with single_class_model)
      = (absent_with single_class_model, Raise (HTTPException 500 detail)).
Proof.
  apply (short_probability_row_fails example_record (absent_with single_class_model)
           single_class_model [absent_vector example_record] [1%Q] []);
    try reflexivity.
  simpl. lia.
Defined.

(** A failure of [prepare_features] reaches the caller of [predict_churn]
    as a status-500 exception whose detail is the feature-preparation text
    behind a second status prefix; like every failure of the endpoint it is
    a status-500 exception, and the globals are unchanged. *)
Theorem feature_failure_at_endpoint (c : CustomerData) (g : globals) (m : Model)
    (e : exn) :
  model g = Some m ->
  run (prepare_features c) g = Raise e ->
  exists msg,
    e = HTTPException 500 ("Feature preparation error: " ++ msg) /\
    predict_churn c g
      = (g, Raise (HTTPException 500 ("500: Feature preparation error: " ++ msg))).
Proof.
  intros Hm He.
  assert (Hshape : exists msg, e = HTTPException 500 ("Feature preparation error: " ++ msg)).
  { revert He. rewrite run_prepare_features.
    destruct (run (add_encoded c (base_features c)) g) as [d|e1];
      [|intros H; injection H as <-; eexists; reflexivity].
    destruct (run (to_array d) g) as [Y|e2];
      [|intros H; injection H as <-; eexists; reflexivity].
    destruct (run (scale_array Y) g) as [Z|e3]; [discriminate|].
    intros H; injection H as <-; eexists; reflexivity. }
  destruct Hshape as [msg ->]. exists msg. split; [reflexivity|].
  unfold predict_churn, try_except, predict_churn_body, bind, read. rewrite Hm.
  rewrite (read_only_run _ g (ro_prepare_features c)), He. reflexivity.
Qed.

Lemma feature_failure_at_endpoint_witness :
  exists msg,
    predict_churn weekly_record trained_globals
      = (trained_globals,
         Raise (HTTPException 500 ("500: Feature preparation error: " ++ msg))).
Proof.
  destruct (feature_failure_at_endpoint weekly_record trained_globals stub_model _
              eq_refl eq_refl) as (msg & _ & H).
  exists msg. exact H.
Defined.

(** The three fields [online_security], [tech_support] and [streaming_tv]
    of a request have no influence: two records that agree on the other
    seven fields get the same feature array and the same response or
    error. *)
Theorem unused_fields_ignored (c c' : CustomerData) (g : globals) :
  same_features_input c c' ->
  prepare_features c g = prepare_features c' g /\
  predict_churn c g = predict_churn c' g.
Proof.
  destruct c, c'. unfold same_features_input. simpl.
  intros (-> & -> & -> & -> & -> & -> & ->). split; reflexivity.
Qed.

Lemma unused_fields_ignored_witness :
  predict_churn example_record (absent_with stub_model)
    = predict_churn streaming_record (absent_with stub_model).
Proof.
  apply (unused_fields_ignored example_record streaming_record).
  repeat split.
Defined.

(** * Further properties of the feature builder *)

Lemma extended_features_keys c a b i :
  map fst (dict_set (dict_set (dict_set (base_features c) "contract_encoded" a)
                       "payment_encoded" b) "internet_encoded" i)
    = fallback_order.
Proof. reflexivity. Qed.

Lemma for_each_getitem_missing {V} (d : dict V) cols g k :
  In k cols -> dict_get d k = None ->
  exists e, run (for_each (getitem d) cols) g = Raise e.
Proof.
  induction cols as [|col cols IH]; simpl; intros Hin Hk; [contradiction|].
  rewrite run_bind by apply ro_getitem.
  unfold getitem at 1. destruct (dict_get d col) as [v|] eqn:E.
  - unfold run at 1, ret. simpl.
    rewrite run_bind by (apply ro_for_each; intro; apply ro_getitem).
    destruct Hin as [->|Hin]; [congruence|].
    destruct (IH Hin Hk) as [e ->]. eauto.
  - unfold run at 1, raise. simpl. eauto.
Qed.

Lemma for_each_getitem_nth {V} (d : dict V) cols g row :
  run (for_each (getitem d) cols) g = Ok row ->
  forall j col, nth_error cols j = Some col ->
                exists x, dict_get d col = Some x /\ nth_error row j = Some x.
Proof.
  revert row. induction cols as [|k cols IH]; simpl; intros row H j col Hj.
  - destruct j; discriminate Hj.
  - rewrite run_bind in H by apply ro_getitem.
    unfold getitem at 1 in H. destruct (dict_get d k) as [v|] eqn:E; [|discriminate].
    unfold run at 1, ret in H. simpl in H.
    rewrite run_bind in H by (apply ro_for_each; intro; apply ro_getitem).
    destruct (run (for_each (getitem d) cols) g) as [vs|] eqn:Evs; [|discriminate].
    injection H as <-. destruct j as [|j]; simpl in Hj.
    + injection Hj as <-. exists v. split; [exact E | reflexivity].
    + simpl. eapply IH; [reflexivity | exact Hj].
Qed.

Lemma affine_nth xs ms ss : forall j x,
  length xs = length ms -> length xs = length ss ->
  nth_error xs j = Some x ->
  exists mu sigma, nth_error ms j = Some mu /\ nth_error ss j = Some sigma /\
                   nth_error (affine xs ms ss) j = Some ((x - mu) / sigma)%Q.
Proof.
  revert ms ss. induction xs as [|y xs IH]; intros [|m ms] [|s ss] j x H1 H2 Hj;
    try discriminate; [destruct j; discriminate Hj|].
  destruct j as [|j]; simpl in *.
  - injection Hj as <-. exists m, s. repeat split.
  - apply IH; congruence.
Qed.

(** When a scaler is loaded, a returned vector always has the width the
    scaler was fitted on; a scaler of another width than the column list
    makes every call fail with the feature-preparation error. *)
Theorem vector_width_is_scaler_width (c : CustomerData) (g : globals)
    (sc : StandardScaler) :
  scaler g = Some sc ->
  (forall X, run (prepare_features c) g = Ok X ->
             exists v, X = [v] /\ length v = length (mean_ sc) /\
                       length v = length (scale_ sc)) /\
  (length (mean_ sc) <> length (effective_columns g) ->
   exists msg,
     prepare_features c g
       = (g, Raise (HTTPException 500 ("Feature preparation error: " ++ msg)))).
Proof.
  intros Hs.
  assert (Hwidth : forall X, run (prepare_features c) g = Ok X ->
             exists v, X = [v] /\ length v = length (mean_ sc) /\
                       length v = length (scale_ sc)).
  { intros X. rewrite run_prepare_features.
    destruct (run (add_encoded c (base_features c)) g) as [d|]; [|discriminate].
    rewrite run_to_array.
    destruct (run (for_each (getitem d) (effective_columns g)) g) as [row|];
      [|discriminate].
    rewrite run_scale_array, Hs. unfold scaler_transform. simpl.
    rewrite andb_true_r. destruct (shape_ok sc row) eqn:E; [|discriminate].
    intros H; injection H as <-. eexists. split; [reflexivity|].
    unfold shape_ok in E. apply andb_true_iff in E. destruct E as [E1 E2].
    apply Nat.eqb_eq in E1, E2. rewrite affine_length by assumption. split; assumption. }
  split; [exact Hwidth|]. intros Hne.
  rewrite (read_only_run _ g (ro_prepare_features c)).
  destruct (run (prepare_features c) g) as [X|e] eqn:E.
  - exfalso. destruct (Hwidth X eq_refl) as (v & -> & Hv & _).
    destruct (vector_length c g _ E) as (v' & Hv' & Hlen).
    injection Hv' as <-. congruence.
  - revert E. rewrite run_prepare_features.
    destruct (run (add_encoded c (base_features c)) g) as [d|e1];
      [|intros H; injection H as <-; eexists; reflexivity].
    destruct (run (to_array d) g) as [Y|e2];
      [|intros H; injection H as <-; eexists; reflexivity].
    destruct (run (scale_array Y) g) as [Z|e3]; [discriminate|].
    intros H; injection H as <-; eexists; reflexivity.
Qed.

Lemma vector_width_is_scaler_width_witness :
  exists msg,
    prepare_features example_record narrow_scaler_globals
      = (narrow_scaler_globals,
         Raise (HTTPException 500 ("Feature preparation error: " ++ msg))).
Proof.
  refine (proj2 (vector_width_is_scaler_width example_record narrow_scaler_globals
                   _ eq_refl) _).
  simpl. discriminate.
Defined.

(** A loaded column list that names anything else than the twelve
    features makes every call of [prepare_features] fail with the
    feature-preparation error, whatever the record. *)
Theorem unknown_column_fails (c : CustomerData) (g : globals) (cols : list string)
    (k : string) :
  feature_columns g = Some cols ->
  In k cols ->
  ~ In k fallback_order ->
  exists msg,
    prepare_features c g
      = (g, Raise (HTTPException 500 ("Feature preparation error: " ++ msg))).
Proof.
  intros Hf Hin Hk.
  assert (Heff : effective_columns g = cols).
  { unfold effective_columns. rewrite Hf. destruct cols; [contradiction | reflexivity]. }
  rewrite (read_only_run _ g (ro_prepare_features c)), run_prepare_features.
  destruct (run (add_encoded c (base_features c)) g) as [d|e1] eqn:Ed;
    [|eexists; reflexivity].
  destruct (add_encoded_shape c g d Ed) as (a & b & i & ->).
  rewrite run_to_array, Heff.
  match goal with
  | |- context [run (for_each (getitem ?d) cols) g] =>
      destruct (for_each_getitem_missing d cols g k Hin) as [e ->]
  end.
  - apply dict_get_absent. rewrite extended_features_keys. exact Hk.
  - eexists; reflexivity.
Qed.

Lemma unknown_column_fails_witness :
  exists msg,
    prepare_features example_record misnamed_globals
      = (misnamed_globals,
         Raise (HTTPException 500 ("Feature preparation error: " ++ msg))).
Proof.
  apply (unknown_column_fails example_record misnamed_globals
           [ "tenure"; "monthly_charges_ratio" ] "monthly_charges_ratio").
  - reflexivity.
  - right; left; reflexivity.
  - unfold fallback_order. simpl.
    intros H. repeat (destruct H as [H|H]; [discriminate H|]). exact H.
Defined.

(** The returned row follows the column list entry by entry: entry [j] is
    the feature named by column [j] (the loaded list, or the fallback order),
    as it stands in the feature dictionary when no scaler is loaded, and
    minus the scaler's mean [j] over its scale [j] when one is.  Columns may
    so be reordered, dropped or repeated. *)
Theorem row_follows_columns (c : CustomerData) (g : globals) (d : dict Q)
    (v : list Q) (j : nat) (col : string) :
  run (add_encoded c (base_features c)) g = Ok d ->
  run (prepare_features c) g = Ok [v] ->
  nth_error (effective_columns g) j = Some col ->
  exists x,
    dict_get d col = Some x /\
    match scaler g with
    | None => nth_error v j = Some x
    | Some sc =>
        exists mu sigma,
          nth_error (mean_ sc) j = Some mu /\ nth_error (scale_ sc) j = Some sigma /\
          nth_error v j = Some ((x - mu) / sigma)%Q
    end.
Proof.
  intros Hd Hv Hj. revert Hv. rewrite run_prepare_features, Hd, run_to_array.
  destruct (run (for_each (getitem d) (effective_columns g)) g) as [row|] eqn:Erow;
    [|discriminate].
  destruct (for_each_getitem_nth d _ g row Erow j col Hj) as (x & Hx & Hrow).
  rewrite run_scale_array. intros Hv. exists x. split; [exact Hx|].
  destruct (scaler g) as [sc|].
  - revert Hv. unfold scaler_transform. simpl. rewrite andb_true_r.
    destruct (shape_ok sc row) eqn:E; [|discriminate].
    intros H; injection H as <-.
    unfold shape_ok in E. apply andb_true_iff in E. destruct E as [E1 E2].
    apply Nat.eqb_eq in E1, E2. apply affine_nth; assumption.
  - injection Hv as <-. exact Hrow.
Qed.

Lemma row_follows_columns_witness :
  exists x,
    dict_get (fallback_codes example_record (base_features example_record))
      "is_month_to_month" = Some x /\
    nth_error (absent_vector example_record) 4 = Some x.
Proof.
  exact (row_follows_columns example_record initial_globals _ _ 4 "is_month_to_month"
           eq_refl eq_refl eq_refl).
Defined.

(** * The label encoders of the training script *)

Lemma insert_sorted_In v l x : In x (insert_sorted v l) <-> x = v \/ In x l.
Proof.
  induction l as [|y l IH]; simpl.
  - split; [intros [H|[]]; left; congruence | intros [H|[]]; left; congruence].
  - destruct (String.compare v y) eqn:E; simpl.
    + apply String.compare_eq_iff in E. subst y.
      split; [intros H; right; exact H | intros [->|H]; [left; reflexivity | exact H]].
    + split; [intros [H|H]; [left; congruence | right; exact H]
             | intros [H|H]; [left; congruence | right; exact H]].
    + rewrite IH. split; [intros [H|[H|H]] | intros [H|[H|H]]]; auto.
Qed.

Lemma le_fit_In col x : In x (classes_ (le_fit col)) <-> In x col.
Proof.
  unfold le_fit. simpl. induction col as [|v col IH]; simpl; [tauto|].
  rewrite insert_sorted_In, IH. split; intros [H|H]; auto.
Qed.

Lemma ascii_compare_refl a : Ascii.compare a a = Eq.
Proof. unfold Ascii.compare. apply N.compare_refl. Qed.

Lemma string_compare_refl s : String.compare s s = Eq.
Proof.
  induction s as [|a s IH]; simpl; [reflexivity|].
  rewrite ascii_compare_refl. exact IH.
Qed.

Lemma string_lt_trans a b c : string_lt a b -> string_lt b c -> string_lt a c.
Proof.
  unfold string_lt. revert b c.
  induction a as [|x a IH]; intros [|y b] [|z c]; simpl; try discriminate; try reflexivity.
  destruct (Ascii.compare x y) eqn:Exy; try discriminate.
  - apply Ascii.compare_eq_iff in Exy. subst y.
    destruct (Ascii.compare x z); try discriminate; [apply IH | reflexivity].
  - intros _. destruct (Ascii.compare y z) eqn:Eyz; try discriminate.
    + apply Ascii.compare_eq_iff in Eyz. subst z. rewrite Exy. reflexivity.
    + intros _. unfold Ascii.compare in *.
      rewrite N.compare_lt_iff in Exy, Eyz.
      assert (H : (N_of_ascii x < N_of_ascii z)%N) by (eapply N.lt_trans; eassumption).
      apply N.compare_lt_iff in H. rewrite H. reflexivity.
Qed.

Lemma string_lt_irrefl a : ~ string_lt a a.
Proof. unfold string_lt. rewrite string_compare_refl. discriminate. Qed.

Lemma insert_sorted_sorted v l :
  StronglySorted string_lt l -> StronglySorted string_lt (insert_sorted v l).
Proof.
  induction l as [|y l IH]; simpl; intros Hs.
  - constructor; [constructor | constructor].
  - destruct (String.compare v y) eqn:E.
    + exact Hs.
    + constructor; [exact Hs|]. inversion Hs as [|? ? Hl Hall]; subst.
      constructor; [exact E|].
      rewrite Forall_forall in *. intros x Hx.
      eapply string_lt_trans; [exact E | apply Hall; exact Hx].
    + inversion Hs as [|? ? Hl Hall]; subst. constructor; [apply IH; exact Hl|].
      rewrite Forall_forall in *. intros x Hx. apply insert_sorted_In in Hx.
      destruct Hx as [->|Hx]; [|apply Hall; exact Hx].
      unfold string_lt. rewrite String.compare_antisym, E. reflexivity.
Qed.

Lemma le_fit_sorted col : StronglySorted string_lt (classes_ (le_fit col)).
Proof.
  unfold le_fit. simpl. induction col as [|v col IH]; simpl.
  - constructor.
  - apply insert_sorted_sorted. exact IH.
Qed.

Lemma sorted_NoDup l : StronglySorted string_lt l -> NoDup l.
Proof.
  induction 1 as [|a l Hs IH Hall]; constructor; [|exact IH].
  intros Hin. rewrite Forall_forall in Hall. exact (string_lt_irrefl a (Hall a Hin)).
Qed.

Lemma sorted_same_elements l : forall l',
  StronglySorted string_lt l -> StronglySorted string_lt l' ->
  (forall x, In x l <-> In x l') -> l = l'.
Proof.
  induction l as [|a l IH]; intros [|b l'] Hs Hs' Hsame.
  - reflexivity.
  - exfalso. apply (proj2 (Hsame b)). left; reflexivity.
  - exfalso. apply (proj1 (Hsame a)). left; reflexivity.
  - inversion Hs as [|? ? Hl Hall]; subst. inversion Hs' as [|? ? Hl' Hall']; subst.
    rewrite Forall_forall in Hall, Hall'.
    assert (Hab : a = b).
    { destruct (proj1 (Hsame a) (or_introl eq_refl)) as [Hb|Hb]; [congruence|].
      destruct (proj2 (Hsame b) (or_introl eq_refl)) as [Ha|Ha]; [congruence|].
      exfalso. apply (string_lt_irrefl a).
      eapply string_lt_trans; [apply Hall; exact Ha | apply Hall'; exact Hb]. }
    subst b. f_equal. apply IH; try assumption.
    intros x. split; intros Hx.
    + destruct (proj1 (Hsame x) (or_intror Hx)) as [->|H]; [|exact H].
      exfalso. exact (string_lt_irrefl x (Hall x Hx)).
    + destruct (proj2 (Hsame x) (or_intror Hx)) as [->|H]; [|exact H].
      exfalso. exact (string_lt_irrefl x (Hall' x Hx)).
Qed.

Lemma index_of_nth v l i : index_of v l = Some i -> nth_error l i = Some v.
Proof.
  revert i. induction l as [|x l IH]; simpl; intros i H; [discriminate|].
  destruct (String.eqb_spec v x) as [->|Hne].
  - injection H as <-. reflexivity.
  - destruct (index_of v l) as [j|]; [|discriminate]. injection H as <-.
    simpl. apply IH. reflexivity.
Qed.

Lemma le_fit_same_values col col' :
  (forall v, In v col <-> In v col') -> le_fit col = le_fit col'.
Proof.
  intros Hsame.
  assert (H : classes_ (le_fit col) = classes_ (le_fit col')).
  { apply sorted_same_elements; try apply le_fit_sorted.
    intros x. rewrite !le_fit_In. apply Hsame. }
  destruct (le_fit col), (le_fit col'). simpl in H. congruence.
Qed.

(** On the encoder-backed path the code of a value is its position among
    the classes of the encoder stored under the column's name: decoding the
    code gives the value back, the code is below the number of classes, and
    no other value gets the same code. *)
Theorem code_round_trip (les : dict LabelEncoder) (name v : string) (code : Q)
    (g : globals) :
  run (encode_with les name v) g = Ok code ->
  exists enc i,
    dict_get les name = Some enc /\
    code = inject_Z (Z.of_nat i) /\
    nth_error (classes_ enc) i = Some v /\
    (i < length (classes_ enc))%nat /\
    (forall w, run (encode_with les name w) g = Ok code -> w = v).
Proof.
  rewrite run_encode_with.
  destruct (dict_get les name) as [enc|] eqn:Eenc; [|discriminate].
  destruct (index_of v (classes_ enc)) as [i|] eqn:Ei; [|discriminate].
  intros H; injection H as <-. exists enc, i.
  pose proof (index_of_nth _ _ _ Ei) as Hnth.
  split; [reflexivity|]. split; [reflexivity|]. split; [exact Hnth|].
  split; [apply nth_error_Some; congruence|].
  intros w. rewrite run_encode_with, Eenc.
  destruct (index_of w (classes_ enc)) as [j|] eqn:Ej; [|discriminate].
  intros H. injection H as H. apply Nat2Z.inj in H. subst j.
  apply index_of_nth in Ej. congruence.
Qed.

Lemma code_round_trip_witness :
  exists enc i,
    dict_get trained_label_encoders "payment" = Some enc /\
    (2%Q = inject_Z (Z.of_nat i)) /\
    nth_error (classes_ enc) i = Some "Electronic check".
Proof.
  destruct (code_round_trip trained_label_encoders "payment" "Electronic check" 2%Q
              trained_globals eq_refl) as (enc & i & H0 & H1 & H2 & _).
  exists enc, i. repeat split; assumption.
Defined.

(** * Feature engineering at training time *)

Lemma encode_all_known cls ys :
  (forall y, In y ys -> In y cls) ->
  encode_all cls ys = Ok (map (code_of cls) ys).
Proof.
  induction ys as [|y ys IH]; simpl; intros H; [reflexivity|].
  destruct (index_of_In y cls (H y (or_introl eq_refl))) as [i Hi].
  unfold code_of at 1. rewrite Hi, IH; [reflexivity|].
  intros z Hz. apply H. right; exact Hz.
Qed.

Lemma fit_transform_ok column :
  fit_transform column
    = (le_fit column, Ok (map (code_of (classes_ (le_fit column))) column)).
Proof.
  unfold fit_transform, le_transform. f_equal. apply encode_all_known.
  intros y Hy. apply le_fit_In. exact Hy.
Qed.

Lemma add_code_columns_map df (fc fp fn : DataRow -> Q) :
  add_code_columns df (map fc df) (map fp df) (map fn df)
    = map (fun r => row_features r (fc r) (fp r) (fn r)) df.
Proof.
  induction df as [|r df IH]; simpl; [reflexivity|]. rewrite IH. reflexivity.
Qed.

Lemma engineer_features_eq df :
  let contracts := classes_ (le_fit (map (fun r => contract_type (attributes r)) df)) in
  let payments := classes_ (le_fit (map (fun r => payment_method (attributes r)) df)) in
  let internets := classes_ (le_fit (map (fun r => internet_service (attributes r)) df)) in
  engineer_features df
    = Ok (map (engineered_row contracts payments internets) df,
          [ ("contract", le_fit (map (fun r => contract_type (attributes r)) df));
            ("payment", le_fit (map (fun r => payment_method (attributes r)) df));
            ("internet", le_fit (map (fun r => internet_service (attributes r)) df)) ]).
Proof.
  simpl. unfold engineer_features. rewrite !fit_transform_ok.
  rewrite !map_map. rewrite add_code_columns_map. reflexivity.
Qed.

(** [engineer_features] never raises.  It returns one processed row per
    data row and three encoders; the encoder stored under [contract],
    [payment] and [internet] knows exactly the values that occur in the
    contract, payment and internet column of the frame; so a category seen
    in training is never refused on the encoder-backed serving path. *)
Theorem engineer_features_total (df : list DataRow) :
  exists processed les,
    engineer_features df = Ok (processed, les) /\
    length processed = length df /\
    (forall r g, In r df ->
       known les "contract" (contract_type (attributes r)) /\
       known les "payment" (payment_method (attributes r)) /\
       known les "internet" (internet_service (attributes r)) /\
       (exists code, run (encode_with les "contract" (contract_type (attributes r))) g
                       = Ok code) /\
       (exists code, run (encode_with les "payment" (payment_method (attributes r))) g
                       = Ok code) /\
       (exists code, run (encode_with les "internet" (internet_service (attributes r))) g
                       = Ok code)) /\
    (forall v,
       (known les "contract" v <->
        In v (map (fun r => contract_type (attributes r)) df)) /\
       (known les "payment" v <->
        In v (map (fun r => payment_method (attributes r)) df)) /\
       (known les "internet" v <->
        In v (map (fun r => internet_service (attributes r)) df))).
Proof.
  pose proof (engineer_features_eq df) as H. simpl in H.
  eexists. eexists. split; [exact H|]. split; [apply length_map|]. split.
  - intros r g Hr.
    assert (Hc : known
              [ ("contract", le_fit (map (fun r => contract_type (attributes r)) df));
                ("payment", le_fit (map (fun r => payment_method (attributes r)) df));
                ("internet", le_fit (map (fun r => internet_service (attributes r)) df)) ]
              "contract" (contract_type (attributes r))).
    { eexists. split; [reflexivity|]. apply le_fit_In.
      apply (in_map (fun r => contract_type (attributes r))). exact Hr. }
    assert (Hp : known
              [ ("contract", le_fit (map (fun r => contract_type (attributes r)) df));
                ("payment", le_fit (map (fun r => payment_method (attributes r)) df));
                ("internet", le_fit (map (fun r => internet_service (attributes r)) df)) ]
              "payment" (payment_method (attributes r))).
    { eexists. split; [reflexivity|]. apply le_fit_In.
      apply (in_map (fun r => payment_method (attributes r))). exact Hr. }
    assert (Hi : known
              [ ("contract", le_fit (map (fun r => contract_type (attributes r)) df));
                ("payment", le_fit (map (fun r => payment_method (attributes r)) df));
                ("internet", le_fit (map (fun r => internet_service (attributes r)) df)) ]
              "internet" (internet_service (attributes r))).
    { eexists. split; [reflexivity|]. apply le_fit_In.
      apply (in_map (fun r => internet_service (attributes r))). exact Hr. }
    split; [exact Hc|]. split; [exact Hp|]. split; [exact Hi|].
    split; [|split].
    + destruct (encode_with_known _ _ _ g Hc) as [i Hi']. eauto.
    + destruct (encode_with_known _ _ _ g Hp) as [i Hi']. eauto.
    + destruct (encode_with_known _ _ _ g Hi) as [i Hi']. eauto.
  - intros v. repeat split.
    all: first
      [ intros (enc & Henc & Hin); simpl in Henc; injection Henc as <-;
        apply le_fit_In; exact Hin
      | intros Hin; eexists; split; [reflexivity|]; apply le_fit_In; exact Hin ].
Qed.

Lemma Qeq_bool_positive x : (0 < x)%Q -> Qeq_bool x 0 = false.
Proof.
  intros H. destruct (Qeq_bool x 0) eqn:E; [|reflexivity].
  apply Qeq_bool_eq in E. rewrite E in H. exfalso. revert H. apply Qlt_irrefl.
Qed.

(** Training and serving build the same features.  Take a data row with a
    positive monthly charge, the frame and encoders that [engineer_features]
    produces, and a server that has loaded what [save_model] wrote for these
    encoders and the twelve training columns.  Then the twelve training
    columns of the row are all finite, and [prepare_features] on the row's
    attributes returns the scaler's transform of exactly these twelve
    numbers, as the training script feeds them to the model. *)
Theorem train_serve_parity (df : list DataRow) (processed : list (dict (option Q)))
    (les : dict LabelEncoder) (i : nat) (r : DataRow) (best : option Model)
    (sc : StandardScaler) (disk : storage) (g0 : globals) :
  engineer_features df = Ok (processed, les) ->
  nth_error df i = Some r ->
  (0 < monthly_charges (attributes r))%Q ->
  let g := fst (load_model (save_model best sc trained_feature_columns les disk) g0) in
  exists d v,
    nth_error processed i = Some d /\
    select_columns d trained_feature_columns = Ok (map Some v) /\
    length v = 12%nat /\
    run (prepare_features (attributes r)) g = feature_error (scaler_transform sc [v]).
Proof.
  intros Heng Hr Hpos. rewrite engineer_features_eq in Heng.
  injection Heng as <- <-. simpl.
  set (contracts := classes_ (le_fit (map (fun r => contract_type (attributes r)) df))).
  set (payments := classes_ (le_fit (map (fun r => payment_method (attributes r)) df))).
  set (internets := classes_ (le_fit (map (fun r => internet_service (attributes r)) df))).
  assert (Hin : In r df) by (eapply nth_error_In; exact Hr).
  destruct (index_of_In (contract_type (attributes r)) contracts) as [ic Hic].
  { apply le_fit_In. apply (in_map (fun r => contract_type (attributes r))). exact Hin. }
  destruct (index_of_In (payment_method (attributes r)) payments) as [ip Hip].
  { apply le_fit_In. apply (in_map (fun r => payment_method (attributes r))). exact Hin. }
  destruct (index_of_In (internet_service (attributes r)) internets) as [ii Hii].
  { apply le_fit_In. apply (in_map (fun r => internet_service (attributes r))). exact Hin. }
  exists (engineered_row contracts payments internets r).
  exists [ inject_Z (tenure (attributes r)); monthly_charges (attributes r);
           total_charges (attributes r);
           inject_Z (customer_service_calls (attributes r));
           if String.eqb (contract_type (attributes r)) "Month-to-month"
           then 1%Q else 0%Q;
           if String.eqb (payment_method (attributes r)) "Electronic check"
           then 1%Q else 0%Q;
           if negb (String.eqb (internet_service (attributes r)) "No")
           then 1%Q else 0%Q;
           (inject_Z (tenure (attributes r)) / monthly_charges (attributes r))%Q;
           (total_charges (attributes r) / monthly_charges (attributes r))%Q;
           inject_Z (Z.of_nat ic); inject_Z (Z.of_nat ip); inject_Z (Z.of_nat ii) ].
  split; [rewrite nth_error_map, Hr; reflexivity|].
  assert (Hp : positive (monthly_charges (attributes r)) = true)
    by (apply positive_spec; exact Hpos).
  split; [|split].
  - unfold engineered_row, row_features, trained_feature_columns, pd_div, code_of.
    rewrite Hic, Hip, Hii, (Qeq_bool_positive _ Hpos).
    cbn [select_columns dict_get String.eqb Ascii.eqb Bool.eqb map]. reflexivity.
  - reflexivity.
  - rewrite run_prepare_features.
    erewrite run_add_encoded_full by reflexivity.
    rewrite !run_encode_with.
    cbn [dict_get String.eqb Ascii.eqb Bool.eqb].
    fold contracts payments internets. rewrite Hic, Hip, Hii.
    rewrite run_to_array. unfold effective_columns.
    cbn [feature_columns trained_feature_columns].
    cbn [base_features dict_set dict_get String.eqb Ascii.eqb Bool.eqb
         trained_feature_columns for_each getitem run bind ret snd fst].
    rewrite Hp. rewrite run_scale_array. cbn [scaler].
    unfold feature_error. destruct (scaler_transform sc _); reflexivity.
Qed.

Lemma train_serve_parity_witness :
  exists d v,
    nth_error (map (engineered_row
                      (classes_ (le_fit (map (fun r => contract_type (attributes r))
                                            demo_frame)))
                      (classes_ (le_fit (map (fun r => payment_method (attributes r))
                                            demo_frame)))
                      (classes_ (le_fit (map (fun r => internet_service (attributes r))
                                            demo_frame))))
                 demo_frame) 0 = Some d /\
    select_columns d trained_feature_columns = Ok (map Some v) /\
    length v = 12%nat.
Proof.
  destruct (train_serve_parity demo_frame _ _ 0 _ (Some stub_model) demo_scaler
              simple_only_disk initial_globals (engineer_features_eq demo_frame)
              eq_refl eq_refl) as (d & v & H1 & H2 & H3 & _).
  exists d, v. repeat split; assumption.
Defined.

Lemma engineer_features_total_witness :
  exists processed les,
    engineer_features demo_frame = Ok (processed, les) /\
    known les "payment" "Credit card".
Proof.
  destruct (engineer_features_total demo_frame) as (processed & les & H & _ & Hk & _).
  exists processed, les. split; [exact H|].
  refine (proj1 (proj2 (Hk (nth 2 demo_frame risky_row) initial_globals _))).
  right; right; left; reflexivity.
Defined.

(** The encoders that [engineer_features] returns depend only on which
    values occur in the three categorical columns, not on the order or the
    number of the rows: two frames with the same values in each column give
    the same encoders.  The encoders are stored under [contract], [payment]
    and [internet], in this order, and the classes of each are the values
    of its column, each once, in strictly increasing order. *)
Theorem encoders_depend_on_values (df df' : list DataRow) :
  (forall v, In v (map (fun r => contract_type (attributes r)) df) <->
             In v (map (fun r => contract_type (attributes r)) df')) ->
  (forall v, In v (map (fun r => payment_method (attributes r)) df) <->
             In v (map (fun r => payment_method (attributes r)) df')) ->
  (forall v, In v (map (fun r => internet_service (attributes r)) df) <->
             In v (map (fun r => internet_service (attributes r)) df')) ->
  exists processed processed' les,
    engineer_features df = Ok (processed, les) /\
    engineer_features df' = Ok (processed', les) /\
    (forall name enc, dict_get les name = Some enc ->
       StronglySorted string_lt (classes_ enc) /\ NoDup (classes_ enc)) /\
    (exists contract payment internet,
       les = [ ("contract", contract); ("payment", payment); ("internet", internet) ] /\
       (forall v, In v (classes_ contract) <->
                  In v (map (fun r => contract_type (attributes r)) df)) /\
       (forall v, In v (classes_ payment) <->
                  In v (map (fun r => payment_method (attributes r)) df)) /\
       (forall v, In v (classes_ internet) <->
                  In v (map (fun r => internet_service (attributes r)) df))).
Proof.
  intros Hc Hp Hi.
  pose proof (engineer_features_eq df) as H. pose proof (engineer_features_eq df') as H'.
  simpl in H, H'.
  rewrite <- (le_fit_same_values _ _ Hc), <- (le_fit_same_values _ _ Hp),
    <- (le_fit_same_values _ _ Hi) in H'.
  eexists. eexists. eexists. split; [exact H|]. split; [exact H'|]. split.
  - intros name enc. simpl.
    repeat (match goal with
            | |- context [String.eqb name ?k] => destruct (String.eqb name k)
            end;
            [intros Henc; injection Henc as <-;
             split; [apply le_fit_sorted | apply sorted_NoDup, le_fit_sorted]|]).
    intros Henc; discriminate Henc.
  - eexists. eexists. eexists. split; [reflexivity|].
    repeat split; intros Hv; apply le_fit_In; exact Hv.
Qed.

Lemma encoders_depend_on_values_witness :
  exists processed processed' les,
    engineer_features demo_frame = Ok (processed, les) /\
    engineer_features (rev demo_frame ++ demo_frame) = Ok (processed', les).
Proof.
  destruct (encoders_depend_on_values demo_frame (rev demo_frame ++ demo_frame))
    as (p1 & p2 & les & H1 & H2 & _ & _).
  - intros v. simpl. tauto.
  - intros v. simpl. tauto.
  - intros v. simpl. tauto.
  - exists p1, p2, les. split; assumption.
Defined.

(** Training has no guard on the divisor: for a row whose monthly charge is
    zero the two ratio columns are not finite numbers in the processed
    frame, while the server computes 0 for both. *)
Theorem zero_charge_ratio_differs (r : DataRow) (c p i : Q) (g : globals)
    (d : dict Q) :
  (monthly_charges (attributes r) == 0)%Q ->
  run (add_encoded (attributes r) (base_features (attributes r))) g = Ok d ->
  dict_get (row_features r c p i) "tenure_monthly_ratio" = Some None /\
  dict_get (row_features r c p i) "total_monthly_ratio" = Some None /\
  dict_get d "tenure_monthly_ratio" = Some 0%Q /\
  dict_get d "total_monthly_ratio" = Some 0%Q.
Proof.
  intros Hz Hd.
  assert (Hb : Qeq_bool (monthly_charges (attributes r)) 0 = true)
    by (apply Qeq_bool_iff; exact Hz).
  unfold row_features, pd_div. rewrite Hb. simpl.
  split; [reflexivity|]. split; [reflexivity|].
  destruct (add_encoded_shape _ g d Hd) as (a & b & n & ->). simpl.
  assert (Hp : positive (monthly_charges (attributes r)) = false).
  { destruct (positive (monthly_charges (attributes r))) eqn:E; [|reflexivity].
    apply positive_spec in E. rewrite Hz in E. exfalso. revert E. apply Qlt_irrefl. }
  rewrite Hp. split; reflexivity.
Qed.

Lemma zero_charge_ratio_differs_witness :
  dict_get (row_features (nth 2 demo_frame risky_row) 0 0 0) "tenure_monthly_ratio"
    = Some None /\
  dict_get (fallback_codes free_record (base_features free_record))
    "tenure_monthly_ratio" = Some 0%Q.
Proof.
  pose proof (zero_charge_ratio_differs (nth 2 demo_frame risky_row) 0 0 0
                initial_globals _ (Qeq_refl 0) eq_refl) as H.
  split; [exact (proj1 H) | exact (proj1 (proj2 (proj2 H)))].
Defined.

(** * Model selection *)

Lemma Qgt_bool_spec x y : Qgt_bool x y = true <-> (y < x)%Q.
Proof.
  unfold Qgt_bool. rewrite (Qgt_alt x y).
  destruct (Qcompare x y); split; congruence.
Qed.

Lemma Qgt_bool_false x y : Qgt_bool x y = false <-> (x <= y)%Q.
Proof.
  split.
  - intros H. apply Qnot_lt_le. intros Hlt. apply Qgt_bool_spec in Hlt. congruence.
  - intros H. destruct (Qgt_bool x y) eqn:E; [|reflexivity].
    apply Qgt_bool_spec in E. exfalso. revert E. apply Qle_not_lt. exact H.
Qed.

Lemma select_step_in_step best top x :
  in_step best top ->
  in_step (if Qgt_bool (cand_auc x) (snd best)
           then (Some (cand_model x), cand_auc x) else best)
          (if Qgt_bool (cand_auc x) (cand_auc top) then x else top).
Proof.
  intros [[-> Hpos] | [-> Hle]].
  - simpl. destruct (Qgt_bool (cand_auc x) (cand_auc top)) eqn:E.
    + left. split; [reflexivity|]. apply Qgt_bool_spec in E.
      eapply Qlt_trans; eassumption.
    + left. split; [reflexivity | exact Hpos].
  - simpl. destruct (Qgt_bool (cand_auc x) 0) eqn:E.
    + apply Qgt_bool_spec in E.
      assert (Hgt : Qgt_bool (cand_auc x) (cand_auc top) = true).
      { apply Qgt_bool_spec. eapply Qle_lt_trans; eassumption. }
      rewrite Hgt. left. split; [reflexivity | exact E].
    + apply Qgt_bool_false in E. right. split; [reflexivity|].
      destruct (Qgt_bool (cand_auc x) (cand_auc top)); assumption.
Qed.

Lemma select_fold_in_step rest : forall best top,
  in_step best top ->
  in_step (fold_left (fun best cand =>
                        if Qgt_bool (cand_auc cand) (snd best)
                        then (Some (cand_model cand), cand_auc cand) else best)
                     rest best)
          (fold_left (fun best cand =>
                        if Qgt_bool (cand_auc cand) (cand_auc best) then cand else best)
                     rest top).
Proof.
  induction rest as [|x rest IH]; intros best top H; simpl; [exact H|].
  apply IH. apply select_step_in_step. exact H.
Qed.

Lemma select_fold_upper rest : forall best,
  let r := fold_left (fun best cand =>
                        if Qgt_bool (cand_auc cand) (snd best)
                        then (Some (cand_model cand), cand_auc cand) else best)
                     rest best in
  (snd best <= snd r)%Q /\ (forall c, In c rest -> (cand_auc c <= snd r)%Q).
Proof.
  induction rest as [|x rest IH]; intros best; simpl.
  - split; [apply Qle_refl | intros c []].
  - destruct (Qgt_bool (cand_auc x) (snd best)) eqn:E.
    + destruct (IH (Some (cand_model x), cand_auc x)) as [H1 H2]. simpl in H1.
      apply Qgt_bool_spec in E. split.
      * apply Qle_trans with (cand_auc x); [apply Qlt_le_weak; exact E | exact H1].
      * intros c [<-|Hc]; [exact H1 | apply H2; exact Hc].
    + destruct (IH best) as [H1 H2]. apply Qgt_bool_false in E.
      split; [exact H1|]. intros c [<-|Hc]; [|apply H2; exact Hc].
      apply Qle_trans with (snd best); assumption.
Qed.

Lemma select_fold_none rest :
  (forall c, In c rest -> (cand_auc c <= 0)%Q) ->
  fold_left (fun best cand =>
               if Qgt_bool (cand_auc cand) (snd best)
               then (Some (cand_model cand), cand_auc cand) else best)
            rest (None, 0%Q) = (None, 0%Q).
Proof.
  induction rest as [|x rest IH]; intros H; simpl; [reflexivity|].
  rewrite (proj2 (Qgt_bool_false (cand_auc x) 0) (H x (or_introl eq_refl))).
  apply IH. intros c Hc. apply H. right; exact Hc.
Qed.

Lemma best_fold_In rest : forall top,
  In (fold_left (fun best cand =>
                   if Qgt_bool (cand_auc cand) (cand_auc best) then cand else best)
                rest top) (top :: rest).
Proof.
  induction rest as [|x rest IH]; intros top; simpl; [left; reflexivity|].
  destruct (Qgt_bool (cand_auc x) (cand_auc top)).
  - right. apply IH.
  - destruct (IH top) as [H|H]; [left; exact H | right; right; exact H].
Qed.

Lemma select_best_cases results :
  (select_best results = (None, 0%Q) /\
   forall c, In c results -> (cand_auc c <= 0)%Q) \/
  (exists top,
     best_by_auc results = Ok top /\ In top results /\
     select_best results = (Some (cand_model top), cand_auc top) /\
     (0 < cand_auc top)%Q).
Proof.
  destruct results as [|first rest].
  - left. split; [reflexivity | intros c []].
  - assert (Hstep : in_step
              (if Qgt_bool (cand_auc first) 0
               then (Some (cand_model first), cand_auc first) else (None, 0%Q))
              first).
    { destruct (Qgt_bool (cand_auc first) 0) eqn:E.
      - left. split; [reflexivity | apply Qgt_bool_spec; exact E].
      - right. split; [reflexivity | apply Qgt_bool_false; exact E]. }
    pose proof (select_fold_in_step rest _ _ Hstep) as Hs.
    destruct (select_fold_upper (first :: rest) (None, 0%Q)) as [_ Hall].
    unfold select_best, best_by_auc. simpl in Hall |- *.
    destruct Hs as [[Hs Hpos] | [Hs _]].
    + right. eexists. split; [reflexivity|]. split; [apply best_fold_In|].
      split; [exact Hs | exact Hpos].
    + left. split; [exact Hs|]. rewrite Hs in Hall. exact Hall.
Qed.

(** The model kept by the loop of [train_models] and the name reported by
    [max] over the AUCs belong to the same candidate, one of greatest AUC,
    as soon as some AUC is positive; the best score is then that AUC and
    bounds every other.  When no AUC is positive the loop keeps no model
    at all, although a name is still reported. *)
Theorem selection_agrees (results : list Candidate) :
  let best := select_best results in
  (0 <= snd best)%Q /\
  (forall c, In c results -> (cand_auc c <= snd best)%Q) /\
  (fst best = None <-> forall c, In c results -> (cand_auc c <= 0)%Q) /\
  (forall m, fst best = Some m ->
     exists top,
       best_by_auc results = Ok top /\ In top results /\
       cand_model top = m /\ cand_auc top = snd best /\ (0 < cand_auc top)%Q).
Proof.
  simpl.
  destruct (select_fold_upper results (None, 0%Q)) as [H0 Hall].
  fold (select_best results) in H0, Hall. simpl in H0.
  split; [exact H0|]. split; [exact Hall|].
  destruct (select_best_cases results)
    as [[Hnone Hneg] | (top & Htop & Hin & Hbest & Hpos)].
  - rewrite Hnone. simpl. split; [split; [intros _; exact Hneg | reflexivity]|].
    intros m Hm; discriminate Hm.
  - rewrite Hbest. simpl. split.
    + split; [intros H; discriminate H|]. intros Hneg. exfalso.
      apply (Qlt_not_le _ _ Hpos). apply Hneg. exact Hin.
    + intros m Hm. injection Hm as <-. exists top. repeat split; assumption.
Qed.

Lemma selection_agrees_witness :
  exists top,
    best_by_auc demo_candidates = Ok top /\
    cand_name top = "Logistic Regression" /\
    fst (select_best demo_candidates) = Some (cand_model top).
Proof.
  destruct (proj2 (proj2 (proj2 (selection_agrees demo_candidates)))
              single_class_model eq_refl) as (top & Htop & _ & Hm & _).
  exists top. split; [exact Htop|].
  injection Htop as <-. split; reflexivity.
Defined.

(** * The churn target of the synthetic data *)

Lemma churn_prob_factors r :
  churn_prob r
    = clip (weighted (short_tenure r) (3 # 10) + weighted (high_charges r) (2 # 10)
            + weighted (monthly_contract r) (3 # 10) + weighted (many_calls r) (2 # 10)
            + weighted (pays_by_echeck r) (1 # 10))%Q 0 1.
Proof. reflexivity. Qed.

(** The churn probability of a row always lies between 0 and 1.  It is 0
    exactly when none of the five risk factors holds, and 1 exactly when the
    four factors other than the payment method all hold: with all five the
    weights add up to more than 1 and the clip cuts the excess. *)
Theorem churn_prob_range (r : DataRow) :
  (0 <= churn_prob r <= 1)%Q /\
  ((churn_prob r == 0)%Q <->
   short_tenure r = false /\ high_charges r = false /\ monthly_contract r = false /\
   many_calls r = false /\ pays_by_echeck r = false) /\
  ((churn_prob r == 1)%Q <->
   short_tenure r = true /\ high_charges r = true /\ monthly_contract r = true /\
   many_calls r = true).
Proof.
  rewrite churn_prob_factors.
  destruct (short_tenure r), (high_charges r), (monthly_contract r), (many_calls r),
    (pays_by_echeck r);
    vm_compute; intuition (try discriminate; try congruence).
Qed.

Lemma churn_prob_range_witness :
  (churn_prob risky_row == 1)%Q.
Proof.
  apply (proj2 (proj2 (churn_prob_range risky_row))). repeat split.
Defined.
